(** * Robotic-Coffee-Maker: the spiral pour and the kettle task callbacks

    A shallow embedding of [botrista/pouring.py] and [botrista/kettle.py].

    Numbers.  Python [int] is [Z].  Python [float] (IEEE binary64) is read
    in two ways.  The exact reading takes a float for the real number [R] it
    denotes and leaves rounding, overflow, infinities and NaN out; the one
    arithmetic failure Python has on such values, [ZeroDivisionError] on a
    zero divisor, is kept.  The ranged reading ([Float64]) keeps what the
    format's finite range adds: a result too large for binary64 becomes an
    infinity, infinities and NaN propagate as IEEE 754 has them, an [int] too
    large for a float raises [OverflowError], and [math.cos] and [math.sin]
    raise [ValueError] on an infinity.  Rounding of finite results is left
    out of both, so a finite coordinate below is the exact value of the
    formula the code evaluates.

    Effects.  The callbacks of the two nodes talk to ROS services (tf2,
    MoveIt, action clients, the delay service).  They are embedded as finite
    programs over the commands they issue; running a program against the
    answers of the outside world gives the ordered list of commands issued and
    the value returned. *)

From Equations Require Import Equations.
From Stdlib Require Import Reals Lra Lia ZArith List String.
Import ListNotations.

Set Implicit Arguments.

(* ===================================================================== *)
(** * Python values: exceptions and division *)
(* ===================================================================== *)

Module Py.

(** The exceptions the embedded code can raise. *)
Inductive exn : Type :=
| ZeroDivisionError
| ValueError
| OverflowError.

(** Outcome of evaluating a Python expression or function body. *)
Inductive result (A : Type) : Type :=
| Ok (a : A)
| Raise (e : exn).
Arguments Ok {A} a.
Arguments Raise {A} e.

Definition bind {A B : Type} (m : result A) (k : A -> result B) : result B :=
  match m with
  | Ok a => k a
  | Raise e => Raise e
  end.

(** [x / y] on floats (or a float and an int): a zero divisor raises. *)
Definition truediv (x y : R) : result R :=
  if Req_dec_T y 0 then Raise ZeroDivisionError else Ok (x / y)%R.

End Py.

Declare Scope py_scope.
Delimit Scope py_scope with py.
Notation "x <- m ;; k" := (Py.bind m (fun x => k))
  (at level 61, m at next level, right associativity) : py_scope.

(* ===================================================================== *)
(** * geometry_msgs *)
(* ===================================================================== *)

Record Point : Type := mkPoint { p_x : R; p_y : R; p_z : R }.

Record Quaternion : Type := mkQuaternion { q_x : R; q_y : R; q_z : R; q_w : R }.

Record Pose : Type := mkPose { position : Point; orientation : Quaternion }.

Record Vector3 : Type := mkVector3 { v_x : R; v_y : R; v_z : R }.

Record Transform : Type := mkTransform { translation : Vector3; rotation : Quaternion }.

(** A [builtin_interfaces/Time] stamp. *)
Record Time : Type := mkTime { sec : Z; nanosec : Z }.

Record Header : Type := mkHeader { stamp : Time; frame_id : string }.

Record TransformStamped : Type := mkTransformStamped
  { header : Header; child_frame_id : string; transform : Transform }.

Record PoseStamped : Type := mkPoseStamped { ps_header : Header; pose : Pose }.

(** Default-constructed messages, as [Quaternion()], [Time()],
    [TransformStamped()] build them. *)
Definition Quaternion_default : Quaternion := mkQuaternion 0 0 0 1.
Definition Time_default : Time := mkTime 0 0.
Definition Header_default : Header := mkHeader Time_default "".
Definition TransformStamped_default : TransformStamped :=
  mkTransformStamped Header_default ""
    (mkTransform (mkVector3 0 0 0) Quaternion_default).

(* ===================================================================== *)
(** * pouring.py: the spiral generator *)
(* ===================================================================== *)

Module Pouring.

Open Scope R_scope.

(** The body of the [while] loop of [get_spiral_waypoints] up to the
    [append]: the pose computed for the current [count]. *)
Definition spiral_pose (startPoint : Point) (startOre : Quaternion)
    (thStep b : R) (count : Z) : Pose :=
  let th := IZR count * thStep in
  let r := th * b in
  let x_n := r * cos th + p_x startPoint in
  let y_n := r * sin th + p_y startPoint in
  let z_n := p_z startPoint in
  mkPose (mkPoint x_n y_n z_n) startOre.

(** [while count < numPoints: ...; poseList.append(...); count += 1]. *)
Equations? spiral_loop (startPoint : Point) (startOre : Quaternion)
    (numPoints : Z) (thStep b : R) (count : Z) (poseList : list Pose)
    : list Pose by wf (Z.to_nat (numPoints - count)) lt :=
  spiral_loop startPoint startOre numPoints thStep b count poseList
    with Z_lt_dec count numPoints => {
    | left _ :=
        spiral_loop startPoint startOre numPoints thStep b (count + 1)
          (poseList ++ [spiral_pose startPoint startOre thStep b count]);
    | right _ := poseList }.
Proof. lia. Qed.

(** [get_spiral_waypoints(startPoint, startOre, numPoints, maxRadius,
    loops, flipStart)].

    The statement [poseList.reverse] under [if flipStart:] names the bound
    method and drops it; the method is not called, so the statement leaves
    [poseList] as it is. *)
Definition get_spiral_waypoints (startPoint : Point) (startOre : Quaternion)
    (numPoints : Z) (maxRadius loops : R) (flipStart : bool)
    : Py.result (list Pose) :=
  (let count := 0%Z in
   let thTotal := loops * 2 * PI in
   thStep <- Py.truediv thTotal (IZR numPoints) ;;
   b0 <- Py.truediv maxRadius 2 ;;
   b1 <- Py.truediv b0 PI ;;
   b <- Py.truediv b1 loops ;;
   let poseList := spiral_loop startPoint startOre numPoints thStep b count [] in
   let poseList :=
     if flipStart then (let _reverse := @rev Pose in poseList) else poseList in
   Py.Ok poseList)%py.

End Pouring.

(* ===================================================================== *)
(** * Callbacks as programs over the commands they issue *)
(* ===================================================================== *)

Module Prog.
Section Prog.

(** The commands a node can issue, and the type of the answer to each. *)
Variable cmd : Type.
Variable resp : cmd -> Type.

(** A callback body.  [Call c k] is the statement [x = c(...)], a plain
    call whose value is available at once; [Await c k] is
    [x = await c(...)], which suspends the callback until the outside world
    has completed [c] and answered. *)
Inductive prog (A : Type) : Type :=
| Ret (a : A)
| Throw (e : Py.exn)
| Call (c : cmd) (k : resp c -> prog A)
| Await (c : cmd) (k : resp c -> prog A).
Arguments Ret {A} a.
Arguments Throw {A} e.
Arguments Call {A} c k.
Arguments Await {A} c k.

(** What an observer of the node sees, in order. *)
Inductive event : Type :=
| Called (c : cmd)
| Awaited (c : cmd).

(** The outside world: its answer to a command, given what has been issued
    so far. *)
Definition world : Type := list event -> forall c : cmd, resp c.

(** Run a callback against a world, from the events already issued. *)
Fixpoint run {A : Type} (w : world) (p : prog A) (trace : list event)
    : list event * Py.result A :=
  match p with
  | Ret a => (trace, Py.Ok a)
  | Throw e => (trace, Py.Raise e)
  | Call c k => run w (k (w trace c)) (trace ++ [Called c])
  | Await c k => run w (k (w trace c)) (trace ++ [Awaited c])
  end.

(** A pure Python computation inside a callback: its exception, if any,
    leaves the callback. *)
Definition lift {A B : Type} (m : Py.result A) (k : A -> prog B) : prog B :=
  match m with
  | Py.Ok a => k a
  | Py.Raise e => Throw e
  end.

End Prog.

Arguments Ret {cmd resp A} a.
Arguments Throw {cmd resp A} e.
Arguments Call {cmd resp A} c k.
Arguments Await {cmd resp A} c k.
Arguments Called {cmd} c.
Arguments Awaited {cmd} c.
Arguments lift {cmd resp A B} m k.

End Prog.

(** Notation for callback bodies; each node binds it to its own commands. *)
Declare Scope prog_scope.
Delimit Scope prog_scope with prog.
Reserved Notation "x <- 'call' c ;; k"
  (at level 61, c at next level, right associativity).
Reserved Notation "'call' c ;; k"
  (at level 61, c at next level, right associativity).
Reserved Notation "x <- 'await' c ;; k"
  (at level 61, c at next level, right associativity).
Reserved Notation "'await' c ;; k"
  (at level 61, c at next level, right associativity).
Reserved Notation "x <- 'pure' m ;; k"
  (at level 61, m at next level, right associativity).
Reserved Notation "'return_' a" (at level 61).

(* ===================================================================== *)
(** * botrista_interfaces *)
(* ===================================================================== *)

(** [PourAction.Goal]. *)
Record PourAction_Goal : Type := mkPourGoal
  { num_points : Z;
    spiral_radius : R;
    num_loops : R;
    start_outside : bool;
    pour_frame : string }.

(** [PourAction.Result]. *)
Record PourAction_Result : Type := mkPourResult { status : bool }.

(** [EmptyAction.Result]: no fields. *)
Inductive EmptyAction_Result : Type := EmptyAction_Result_ctor.

(** [franka_msgs/GraspEpsilon]. *)
Record GraspEpsilon : Type := mkGraspEpsilon { inner : R; outer : R }.

(** [GraspProcess.Goal]. *)
Record GraspProcess_Goal : Type := mkGraspProcessGoal
  { goal_observe_pose : Pose;
    goal_refinement_pose : Pose;
    goal_approach_pose : Pose;
    goal_grasp_pose : Pose;
    goal_width : R;
    goal_force : R;
    goal_speed : R;
    goal_epsilon : GraspEpsilon;
    goal_retreat_pose : Pose;
    goal_object : Z }.

(** [GraspProcess.Result]. *)
Record GraspProcess_Result : Type := mkGraspProcessResult
  { actual_grasp_pose : TransformStamped }.

(** [franka_msgs/Grasp.Goal], with the fields [place_kettle_cb] sets. *)
Record Grasp_Goal : Type := mkGraspGoal
  { grasp_width : R; grasp_force : R; grasp_speed : R }.

(** [moveit_wrapper.grasp_planner.GraspPlan]. *)
Record GraspPlan : Type := mkGraspPlan
  { plan_approach_pose : Pose;
    plan_grasp_pose : Pose;
    plan_grasp_command : Grasp_Goal;
    plan_retreat_pose : Pose;
    plan_reset_load : bool }.

(* ===================================================================== *)
(** * pouring.py: the [pour_action] server *)
(* ===================================================================== *)

Module PouringNode.
Section Node.

Open Scope string_scope.

(** [moveit_msgs/RobotTrajectory]: produced by the planner and handed back
    to the executor, never inspected by the node. *)
Variable RobotTrajectory : Type.

(** The answer of [create_cartesian_path]; the node reads [.trajectory]. *)
Record CartesianPath : Type := mkCartesianPath { trajectory : RobotTrajectory }.

Inductive cmd : Type :=
| lookup_transform (target_frame source_frame : string)
| publish_feedback (stage : string)
| get_end_effector_pose
| create_cartesian_path (waypoints : list Pose)
| execute_trajectory (traj : RobotTrajectory)
| succeed.

(** [lookup_transform] answers [None] when tf2 raises
    [TransformException]. *)
Definition resp (c : cmd) : Type :=
  match c with
  | lookup_transform _ _ => option TransformStamped
  | publish_feedback _ => unit
  | get_end_effector_pose => PoseStamped
  | create_cartesian_path _ => CartesianPath
  | execute_trajectory _ => unit
  | succeed => unit
  end.

Definition prog : Type -> Type := Prog.prog resp.
Definition event : Type := Prog.event cmd.
Definition world : Type := Prog.world resp.

Notation "x <- 'call' c ;; k" := (@Prog.Call cmd resp _ c (fun x => k)) : prog_scope.
Notation "'call' c ;; k" := (@Prog.Call cmd resp _ c (fun _ => k)) : prog_scope.
Notation "x <- 'await' c ;; k" := (@Prog.Await cmd resp _ c (fun x => k)) : prog_scope.
Notation "'await' c ;; k" := (@Prog.Await cmd resp _ c (fun _ => k)) : prog_scope.
Notation "x <- 'pure' m ;; k" := (@Prog.lift cmd resp _ _ m (fun x => k)) : prog_scope.
Notation "'return_' a" := (@Prog.Ret cmd resp _ a) : prog_scope.

(** [self.tf_parent_frame]. *)
Definition tf_parent_frame : string := "panda_link0".

(** [Pouring.pour_callback(goal_handle)], with [req = goal_handle.request]. *)
Definition pour_callback (req : PourAction_Goal) : prog PourAction_Result :=
  (tf <- call lookup_transform tf_parent_frame (pour_frame req) ;;
   match tf with
   | None =>
       call publish_feedback ("Failed to get transform to " ++ pour_frame req) ;;
       return_ (mkPourResult false)
   | Some tf =>
       let startVec := translation (transform tf) in
       let startPoint := mkPoint (v_x startVec) (v_y startVec) (v_z startVec) in
       currPose <- await get_end_effector_pose ;;
       let startOre := orientation (pose currPose) in
       call publish_feedback "Calculating path" ;;
       waypoints <- pure Pouring.get_spiral_waypoints startPoint startOre
                      (num_points req) (spiral_radius req) (num_loops req)
                      (start_outside req) ;;
       call publish_feedback "Planning path" ;;
       planned_traj <- await create_cartesian_path waypoints ;;
       call publish_feedback "Executing path" ;;
       call execute_trajectory (trajectory planned_traj) ;;
       call succeed ;;
       return_ (mkPourResult true)
   end)%prog.

End Node.

Arguments lookup_transform {RobotTrajectory} target_frame source_frame.
Arguments publish_feedback {RobotTrajectory} stage.
Arguments get_end_effector_pose {RobotTrajectory}.
Arguments create_cartesian_path {RobotTrajectory} waypoints.
Arguments execute_trajectory {RobotTrajectory} traj.
Arguments succeed {RobotTrajectory}.
Arguments resp {RobotTrajectory} c.
Arguments pour_callback {RobotTrajectory} req.

End PouringNode.

(* ===================================================================== *)
(** * kettle.py: the [pick_kettle], [place_kettle], [pour_kettle] servers *)
(* ===================================================================== *)

Module KettleNode.
Section Node.

Open Scope string_scope.
Open Scope R_scope.

(** Values the node only passes on: what the planner answers, and the
    handle of a goal sent to an action server. *)
Variables PlanResult ClientGoalHandle : Type.

(** [tf2_geometry_msgs.do_transform_pose]. *)
Variable do_transform_pose : Pose -> TransformStamped -> Pose.

Inductive cmd : Type :=
| plan_joint_async (joint_names : list string) (joint_values : list R) (execute : bool)
| plan_async (point : Point) (orientation : Quaternion) (execute : bool)
| lookup_transform (target_frame source_frame : string)
| clock_now
| log_error (msg : string)
| log_warn (msg : string)
| grasp_process_send_goal_async (goal : GraspProcess_Goal)
| grasp_process_get_result_async (goal : ClientGoalHandle)
| execute_grasp_plan (plan : GraspPlan)
| pour_kettle_send_goal_async (goal : PourAction_Goal)
| pour_kettle_get_result_async (goal : ClientGoalHandle)
| delay_call_async (time : R)
| succeed.

(** [lookup_transform] answers [None] when the lookup raises. *)
Definition resp (c : cmd) : Type :=
  match c with
  | plan_joint_async _ _ _ => PlanResult
  | plan_async _ _ _ => PlanResult
  | lookup_transform _ _ => option TransformStamped
  | clock_now => Time
  | log_error _ => unit
  | log_warn _ => unit
  | grasp_process_send_goal_async _ => ClientGoalHandle
  | grasp_process_get_result_async _ => GraspProcess_Result
  | execute_grasp_plan _ => unit
  | pour_kettle_send_goal_async _ => ClientGoalHandle
  | pour_kettle_get_result_async _ => PourAction_Result
  | delay_call_async _ => unit
  | succeed => unit
  end.

Definition prog : Type -> Type := Prog.prog resp.
Definition event : Type := Prog.event cmd.
Definition world : Type := Prog.world resp.

Notation "x <- 'call' c ;; k" := (@Prog.Call cmd resp _ c (fun x => k)) : prog_scope.
Notation "'call' c ;; k" := (@Prog.Call cmd resp _ c (fun _ => k)) : prog_scope.
Notation "x <- 'await' c ;; k" := (@Prog.Await cmd resp _ c (fun x => k)) : prog_scope.
Notation "'await' c ;; k" := (@Prog.Await cmd resp _ c (fun _ => k)) : prog_scope.
Notation "x <- 'pure' m ;; k" := (@Prog.lift cmd resp _ _ m (fun x => k)) : prog_scope.
Notation "'return_' a" := (@Prog.Ret cmd resp _ a) : prog_scope.

(** The fields of the node that the callbacks read or write. *)
Record Kettle : Type := mkKettle
  { kettle_actual_place : TransformStamped;
    observe_pose : Pose;
    approach_pose : Pose;
    grasp_pose : Pose;
    retreat_pose : Pose }.

(** The node as [Kettle.__init__] leaves it. *)
Definition Kettle_init : Kettle :=
  {| kettle_actual_place := TransformStamped_default;
     observe_pose := mkPose (mkPoint 0.0 0.0 0.40) (mkQuaternion 1.0 0.0 0.0 0.0);
     approach_pose := mkPose (mkPoint 0.0 0.0 (-0.10)) Quaternion_default;
     grasp_pose := mkPose (mkPoint 0.03 0.0 0.0) Quaternion_default;
     retreat_pose := mkPose (mkPoint 0.03 0.0 (-0.10)) Quaternion_default |}.

Definition set_kettle_actual_place (self : Kettle) (v : TransformStamped) : Kettle :=
  {| kettle_actual_place := v;
     observe_pose := observe_pose self;
     approach_pose := approach_pose self;
     grasp_pose := grasp_pose self;
     retreat_pose := retreat_pose self |}.

(** A callback returns the node after it and the value of its [return]
    ([None] for a bare [return]). *)
Definition outcome : Type := (Kettle * option EmptyAction_Result)%type.

(** [Kettle.pick_kettle_cb(goal_handle)]. *)
Definition pick_kettle_cb (self : Kettle) : prog outcome :=
  (await plan_joint_async
     ["panda_joint1"; "panda_joint2"; "panda_joint3"; "panda_joint4";
      "panda_joint5"; "panda_joint6"; "panda_joint7"]
     [0.0; - PI / 4.0; 0.0; -3 * PI / 4.0; 0.0; PI / 2.0; PI / 4.0]
     true ;;
   tf <- call lookup_transform "panda_link0" "filtered_kettle_tag" ;;
   match tf with
   | None =>
       call log_error "No transform found" ;;
       return_ (self, None)
   | Some tf =>
       let observe_pose := do_transform_pose (observe_pose self) tf in
       let refinement_pose := mkPose (mkPoint 0.0 0.0 (-0.15)) Quaternion_default in
       let goal_msg :=
         {| goal_observe_pose := observe_pose;
            goal_refinement_pose := refinement_pose;
            goal_approach_pose := approach_pose self;
            goal_grasp_pose := grasp_pose self;
            goal_width := 0.03;
            goal_force := 50.0;
            goal_speed := 0.05;
            goal_epsilon := mkGraspEpsilon 0.01 0.01;
            goal_retreat_pose := retreat_pose self;
            goal_object := 1 |} in
       call log_warn "MADE GRASP PROCESS GOAL" ;;
       goal <- await grasp_process_send_goal_async goal_msg ;;
       res <- await grasp_process_get_result_async goal ;;
       let self := set_kettle_actual_place self (actual_grasp_pose res) in
       call succeed ;;
       return_ (self, Some EmptyAction_Result_ctor)
   end)%prog.

(** [Kettle.place_kettle_cb(goal_handle)]. *)
Definition place_kettle_cb (self : Kettle) : prog outcome :=
  (let approach_pose := mkPose (mkPoint 0.0 0.0 (-0.1)) Quaternion_default in
   let grasp_pose := mkPose (mkPoint 0.0 0.0 (-0.02)) Quaternion_default in
   let retreat_pose := mkPose (mkPoint 0.0 0.0 (-0.1)) Quaternion_default in
   let approach_pose := do_transform_pose approach_pose (kettle_actual_place self) in
   let grasp_pose := do_transform_pose grasp_pose (kettle_actual_place self) in
   let retreat_pose := do_transform_pose retreat_pose (kettle_actual_place self) in
   let grasp_plan :=
     {| plan_approach_pose := approach_pose;
        plan_grasp_pose := grasp_pose;
        plan_grasp_command := mkGraspGoal 0.04 50.0 0.2;
        plan_retreat_pose := approach_pose;
        plan_reset_load := true |} in
   await execute_grasp_plan grasp_plan ;;
   call succeed ;;
   return_ (self, Some EmptyAction_Result_ctor))%prog.

(** [Kettle.pour_kettle_cb(goal_handle)]. *)
Definition pour_kettle_cb (self : Kettle) : prog outcome :=
  (pot_top_tf <- call lookup_transform "panda_link0" "pot_top" ;;
   match pot_top_tf with
   | None =>
       call log_error "No transform found" ;;
       return_ (self, None)
   | Some pot_top_tf =>
   now <- call clock_now ;;
   let tf :=
     mkTransformStamped (mkHeader now "panda_link0") ""
       (mkTransform (mkVector3 (-0.23) 0.0 0.02) Quaternion_default) in
   let approach_pose :=
     mkPose (mkPoint (-0.01) 0.0 0.20) (mkQuaternion 1.0 0.0 0.0 0.0) in
   let pour_pose :=
     mkPose (mkPoint 0.01 (-0.005) 0.17)
            (mkQuaternion 0.9452608 0.0 (-0.3150869) (-0.0848662)) in
   (* transform to spout *)
   let approach_pose := do_transform_pose approach_pose tf in
   let pour_pose := do_transform_pose pour_pose tf in
   (* transform to pot_top *)
   let approach_pose := do_transform_pose approach_pose pot_top_tf in
   let pour_pose := do_transform_pose pour_pose pot_top_tf in
   (* Pour 1 *)
   await plan_async (position approach_pose) (orientation approach_pose) true ;;
   await plan_async (position pour_pose) (orientation pour_pose) true ;;
   let goal_msg := mkPourGoal 100 0.02 2.0 true "panda_hand_tcp" in
   result <- await pour_kettle_send_goal_async goal_msg ;;
   await pour_kettle_get_result_async result ;;
   await plan_async (position approach_pose) (orientation approach_pose) true ;;
   await delay_call_async 1.0 ;;
   (* Pour 2 *)
   await plan_async (position approach_pose) (orientation approach_pose) true ;;
   await plan_async (position pour_pose) (orientation pour_pose) true ;;
   let goal_msg := mkPourGoal 100 0.02 2.0 false "panda_hand_tcp" in
   result <- await pour_kettle_send_goal_async goal_msg ;;
   await pour_kettle_get_result_async result ;;
   await plan_async (position approach_pose) (orientation approach_pose) true ;;
   await delay_call_async 1.0 ;;
   (* Pour 3 *)
   await plan_async (position approach_pose) (orientation approach_pose) true ;;
   await plan_async (position pour_pose) (orientation pour_pose) true ;;
   let goal_msg := mkPourGoal 100 0.02 2.0 false "panda_hand_tcp" in
   result <- await pour_kettle_send_goal_async goal_msg ;;
   await pour_kettle_get_result_async result ;;
   await plan_async (position approach_pose) (orientation approach_pose) true ;;
   await delay_call_async 1.0 ;;
   (* Pour 4 *)
   await plan_async (position approach_pose) (orientation approach_pose) true ;;
   await plan_async (position pour_pose) (orientation pour_pose) true ;;
   let goal_msg := mkPourGoal 100 0.02 2.0 false "panda_hand_tcp" in
   result <- await pour_kettle_send_goal_async goal_msg ;;
   await pour_kettle_get_result_async result ;;
   await plan_async (position approach_pose) (orientation approach_pose) true ;;
   call succeed ;;
   return_ (self, Some EmptyAction_Result_ctor)
   end)%prog.

End Node.

Arguments plan_joint_async {ClientGoalHandle} joint_names joint_values execute.
Arguments plan_async {ClientGoalHandle} point orientation execute.
Arguments lookup_transform {ClientGoalHandle} target_frame source_frame.
Arguments clock_now {ClientGoalHandle}.
Arguments log_error {ClientGoalHandle} msg.
Arguments log_warn {ClientGoalHandle} msg.
Arguments grasp_process_send_goal_async {ClientGoalHandle} goal.
Arguments grasp_process_get_result_async {ClientGoalHandle} goal.
Arguments execute_grasp_plan {ClientGoalHandle} plan.
Arguments pour_kettle_send_goal_async {ClientGoalHandle} goal.
Arguments pour_kettle_get_result_async {ClientGoalHandle} goal.
Arguments delay_call_async {ClientGoalHandle} time.
Arguments succeed {ClientGoalHandle}.
Arguments resp PlanResult {ClientGoalHandle} c.
Arguments pick_kettle_cb {PlanResult ClientGoalHandle} do_transform_pose self.
Arguments place_kettle_cb {PlanResult ClientGoalHandle} do_transform_pose self.
Arguments pour_kettle_cb {PlanResult ClientGoalHandle} do_transform_pose self.

End KettleNode.

(* ===================================================================== *)
(** * The spiral as the specification words it *)
(* ===================================================================== *)

Section SpiralSpec.
Open Scope R_scope.

(** What the loop of [get_spiral_waypoints] leaves in [poseList]: one pose
    per index [0 .. numPoints-1], in increasing order. *)
Definition spiral_points (startPoint : Point) (startOre : Quaternion)
    (numPoints : Z) (thStep b : R) : list Pose :=
  map (fun k => Pouring.spiral_pose startPoint startOre thStep b (Z.of_nat k))
      (seq 0 (Z.to_nat numPoints)).

(** The angle of sample [i]: [i * (loops * 2pi / numPoints)]. *)
Definition spec_theta (numPoints : Z) (loops : R) (i : Z) : R :=
  IZR i * (loops * (2 * PI) / IZR numPoints).

(** The radius of sample [i]: [(maxRadius / (2pi * loops)) * theta_i]. *)
Definition spec_radius (numPoints : Z) (maxRadius loops : R) (i : Z) : R :=
  maxRadius / (2 * PI * loops) * spec_theta numPoints loops i.

(** The waypoint of sample [i] of the specification. *)
Definition spec_waypoint (center : Point) (ore : Quaternion)
    (numPoints : Z) (maxRadius loops : R) (i : Z) : Pose :=
  let th := spec_theta numPoints loops i in
  let r := spec_radius numPoints maxRadius loops i in
  mkPose (mkPoint (p_x center + r * cos th) (p_y center + r * sin th) (p_z center))
         ore.

(** Horizontal distance of [p] from [c]. *)
Definition xy_distance (c p : Point) : R :=
  sqrt (Rsqr (p_x p - p_x c) + Rsqr (p_y p - p_y c)).

(** [p] is [(x, y, z)] up to [tol] on every coordinate. *)
Definition near (tol : R) (p : Point) (x y z : R) : Prop :=
  Rabs (p_x p - x) <= tol /\ Rabs (p_y p - y) <= tol /\ Rabs (p_z p - z) <= tol.

(** The four positions of the worked example: centre at the origin,
    [numPoints = 4], [maxRadius = 0.02], [loops = 1]. *)
Definition origin : Point := mkPoint 0 0 0.

Definition example_waypoints (ore : Quaternion) : list Pose :=
  [ mkPose (mkPoint 0 0 0) ore;
    mkPose (mkPoint 0 0.005 0) ore;
    mkPose (mkPoint (-0.01) 0 0) ore;
    mkPose (mkPoint 0 (-0.015) 0) ore ].

End SpiralSpec.

(* ===================================================================== *)
(** * Worlds to run the callbacks in *)
(* ===================================================================== *)

Section Worlds.
Open Scope R_scope.

(** Hamilton product of two quaternions. *)
Definition quaternion_mul (a b : Quaternion) : Quaternion :=
  mkQuaternion
    (q_w a * q_x b + q_x a * q_w b + q_y a * q_z b - q_z a * q_y b)
    (q_w a * q_y b - q_x a * q_z b + q_y a * q_w b + q_z a * q_x b)
    (q_w a * q_z b + q_x a * q_y b - q_y a * q_x b + q_z a * q_w b)
    (q_w a * q_w b - q_x a * q_x b - q_y a * q_y b - q_z a * q_z b).

(** The rotation of a unit quaternion applied to a point. *)
Definition quaternion_rotate (q : Quaternion) (p : Point) : Point :=
  let x := q_x q in let y := q_y q in let z := q_z q in let w := q_w q in
  mkPoint
    ((1 - 2 * (y * y + z * z)) * p_x p + 2 * (x * y - w * z) * p_y p
       + 2 * (x * z + w * y) * p_z p)
    (2 * (x * y + w * z) * p_x p + (1 - 2 * (x * x + z * z)) * p_y p
       + 2 * (y * z - w * x) * p_z p)
    (2 * (x * z - w * y) * p_x p + 2 * (y * z + w * x) * p_y p
       + (1 - 2 * (x * x + y * y)) * p_z p).

(** A pose carried through a rigid transform: the instance of
    [do_transform_pose] the closed runs below use.  The callbacks take the
    function as a parameter, and no statement rests on its arithmetic. *)
Definition rigid_transform_pose (p : Pose) (t : TransformStamped) : Pose :=
  let q := rotation (transform t) in
  let v := translation (transform t) in
  let r := quaternion_rotate q (position p) in
  mkPose (mkPoint (p_x r + v_x v) (p_y r + v_y v) (p_z r + v_z v))
         (quaternion_mul q (orientation p)).

(** A world for the pour server: tf2 answers [tf] to every lookup, the arm
    reports the end effector at [ee], planning and execution answer at
    once. *)
Definition pouring_world (tf : option TransformStamped) (ee : PoseStamped)
    : PouringNode.world unit :=
  fun _ c =>
    match c return PouringNode.resp c with
    | PouringNode.lookup_transform _ _ => tf
    | PouringNode.publish_feedback _ => tt
    | PouringNode.get_end_effector_pose => ee
    | PouringNode.create_cartesian_path _ => PouringNode.mkCartesianPath tt
    | PouringNode.execute_trajectory _ => tt
    | PouringNode.succeed => tt
    end.

(** A world for the kettle node: tf2 answers [tf] to every lookup, the grasp
    process reports [grasped], every other service answers at once. *)
Definition kettle_world (tf : option TransformStamped) (grasped : TransformStamped)
    : KettleNode.world unit unit :=
  fun _ c =>
    match c return KettleNode.resp unit c with
    | KettleNode.plan_joint_async _ _ _ => tt
    | KettleNode.plan_async _ _ _ => tt
    | KettleNode.lookup_transform _ _ => tf
    | KettleNode.clock_now => Time_default
    | KettleNode.log_error _ => tt
    | KettleNode.log_warn _ => tt
    | KettleNode.grasp_process_send_goal_async _ => tt
    | KettleNode.grasp_process_get_result_async _ => mkGraspProcessResult grasped
    | KettleNode.execute_grasp_plan _ => tt
    | KettleNode.pour_kettle_send_goal_async _ => tt
    | KettleNode.pour_kettle_get_result_async _ => mkPourResult true
    | KettleNode.delay_call_async _ => tt
    | KettleNode.succeed => tt
    end.

(** The arm reporting its end effector at the origin, with the identity
    orientation. *)
Definition ee_at_origin : PoseStamped :=
  mkPoseStamped Header_default (mkPose origin Quaternion_default).

End Worlds.

(* ===================================================================== *)
(** * Reading traces *)
(* ===================================================================== *)

Section Traces.

(** The command of an event, awaited or not. *)
Definition command {cmd : Type} (e : Prog.event cmd) : cmd :=
  match e with
  | Prog.Called c => c
  | Prog.Awaited c => c
  end.

Variable ClientGoalHandle : Type.

(** A motion command of the kettle node: a plan-and-execute request, a grasp
    process, a grasp plan, or a spiral sub-request. *)
Definition is_motion (c : KettleNode.cmd ClientGoalHandle) : bool :=
  match c with
  | KettleNode.plan_joint_async _ _ _ => true
  | KettleNode.plan_async _ _ _ => true
  | KettleNode.grasp_process_send_goal_async _ => true
  | KettleNode.execute_grasp_plan _ => true
  | KettleNode.pour_kettle_send_goal_async _ => true
  | _ => false
  end.

(** The grasp plans a trace submits for execution. *)
Fixpoint submitted_grasp_plans (trace : list (KettleNode.event ClientGoalHandle))
    : list GraspPlan :=
  match trace with
  | [] => []
  | e :: rest =>
      match command e with
      | KettleNode.execute_grasp_plan plan => plan :: submitted_grasp_plans rest
      | _ => submitted_grasp_plans rest
      end
  end.

Variable RobotTrajectory : Type.

(** The pour server waited for an execution to complete: some
    [execute_trajectory] was awaited. *)
Definition awaits_execution (trace : list (PouringNode.event RobotTrajectory)) : Prop :=
  exists traj, In (Prog.Awaited (PouringNode.execute_trajectory traj)) trace.

(** The grasp plan [place_kettle_cb] builds from the recorded grasp. *)
Definition release_plan (do_transform_pose : Pose -> TransformStamped -> Pose)
    (recorded : TransformStamped) : GraspPlan :=
  let approach :=
    do_transform_pose (mkPose (mkPoint 0 0 (-0.1)) Quaternion_default) recorded in
  let grasp :=
    do_transform_pose (mkPose (mkPoint 0 0 (-0.02)) Quaternion_default) recorded in
  mkGraspPlan approach grasp (mkGraspGoal 0.04 50 0.2) approach true.

End Traces.

(* ===================================================================== *)
(** * binary64 with its finite range *)
(* ===================================================================== *)

Module Float64.

Open Scope R_scope.

(** A float: a finite value, an infinity with its sign, or NaN. *)
Inductive t : Type :=
| Fin (r : R)
| Inf (negative : bool)
| NaN.

(** The least magnitude that rounds to an infinity: [2^1024 - 2^970], half
    an ulp above the largest finite float. *)
Definition overflow_threshold_Z : Z := 2 ^ 1024 - 2 ^ 970.
Definition overflow_threshold : R := IZR overflow_threshold_Z.

Definition negative (r : R) : bool := if Rlt_dec r 0 then true else false.

(** The float of an exact result: itself, or an infinity of its sign when it
    is out of range. *)
Definition round_range (r : R) : t :=
  if Rle_dec overflow_threshold (Rabs r) then Inf (negative r) else Fin r.

(** A finite float lies in the range of the format. *)
Definition in_range (x : t) : Prop :=
  match x with
  | Fin r => Rabs r < overflow_threshold
  | _ => True
  end.

Definition is_zero (x : t) : bool :=
  match x with
  | Fin r => if Req_dec_T r 0 then true else false
  | _ => false
  end.

Definition is_inf (x : t) : bool :=
  match x with
  | Inf _ => true
  | _ => false
  end.

(** [x * y]. *)
Definition mul (x y : t) : t :=
  match x, y with
  | NaN, _ | _, NaN => NaN
  | Fin a, Fin b => round_range (a * b)
  | Inf s, Inf s' => Inf (xorb s s')
  | Inf s, Fin b | Fin b, Inf s =>
      if Req_dec_T b 0 then NaN else Inf (xorb s (negative b))
  end.

(** [x + y]. *)
Definition add (x y : t) : t :=
  match x, y with
  | NaN, _ | _, NaN => NaN
  | Fin a, Fin b => round_range (a + b)
  | Inf s, Inf s' => if Bool.eqb s s' then Inf s else NaN
  | Inf s, Fin _ | Fin _, Inf s => Inf s
  end.

(** The quotient of [x] by a non-zero [y]. *)
Definition div (x y : t) : t :=
  match x, y with
  | NaN, _ | _, NaN => NaN
  | Fin a, Fin b => round_range (a / b)
  | Inf _, Inf _ => NaN
  | Inf s, Fin b => Inf (xorb s (negative b))
  | Fin _, Inf _ => Fin 0
  end.

(** Python's [x / y] on floats: a zero divisor raises. *)
Definition truediv (x y : t) : Py.result t :=
  if is_zero y then Py.Raise Py.ZeroDivisionError else Py.Ok (div x y).

(** The float of a Python [int], as arithmetic between an [int] and a float
    converts it: an [int] that would round to an infinity raises. *)
Definition of_int (n : Z) : Py.result t :=
  if Z_le_dec overflow_threshold_Z (Z.abs n)
  then Py.Raise Py.OverflowError
  else Py.Ok (Fin (IZR n)).

(** [math.pi]. *)
Definition pi : t := Fin PI.

(** [math.cos(x)] and [math.sin(x)]: an infinity is a domain error, NaN
    gives NaN. *)
Definition math_cos (x : t) : Py.result t :=
  match x with
  | Fin r => Py.Ok (Fin (cos r))
  | Inf _ => Py.Raise Py.ValueError
  | NaN => Py.Ok NaN
  end.

Definition math_sin (x : t) : Py.result t :=
  match x with
  | Fin r => Py.Ok (Fin (sin r))
  | Inf _ => Py.Raise Py.ValueError
  | NaN => Py.Ok NaN
  end.

End Float64.

(** Points whose coordinates are ranged floats, and poses over them.  The
    orientation of a pose is carried and never computed on, so its type is
    left open. *)
Record Point64 : Type := mkPoint64
  { x64 : Float64.t; y64 : Float64.t; z64 : Float64.t }.

Record Pose64 (Ore : Type) : Type := mkPose64
  { position64 : Point64; orientation64 : Ore }.

(* ===================================================================== *)
(** * pouring.py: the spiral generator, in the ranged reading *)
(* ===================================================================== *)

Module Pouring64.
Section Generator.

Import Float64.

Variable Ore : Type.

(** The body of the [while] loop up to the [append]: the pose computed for
    the current [count], or the exception raised on the way. *)
Definition spiral_pose (startPoint : Point64) (startOre : Ore)
    (thStep b : Float64.t) (count : Z) : Py.result (Pose64 Ore) :=
  (c <- of_int count ;;
   let th := mul c thStep in
   let r := mul th b in
   cos_th <- math_cos th ;;
   let x_n := add (mul r cos_th) (x64 startPoint) in
   sin_th <- math_sin th ;;
   let y_n := add (mul r sin_th) (y64 startPoint) in
   let z_n := z64 startPoint in
   Py.Ok (mkPose64 (mkPoint64 x_n y_n z_n) startOre))%py.

(** [while count < numPoints: ...; poseList.append(...); count += 1]. *)
Equations? spiral_loop (startPoint : Point64) (startOre : Ore)
    (numPoints : Z) (thStep b : Float64.t) (count : Z) (poseList : list (Pose64 Ore))
    : Py.result (list (Pose64 Ore)) by wf (Z.to_nat (numPoints - count)) lt :=
  spiral_loop startPoint startOre numPoints thStep b count poseList
    with Z_lt_dec count numPoints => {
    | left _ with spiral_pose startPoint startOre thStep b count => {
      | Py.Ok p :=
          spiral_loop startPoint startOre numPoints thStep b (count + 1)
            (poseList ++ [p]);
      | Py.Raise e := Py.Raise e };
    | right _ := Py.Ok poseList }.
Proof. lia. Qed.

(** [loops*2*math.pi]. *)
Definition th_total (loops : Float64.t) : Float64.t :=
  mul (mul loops (Fin 2)) pi.

(** [get_spiral_waypoints(startPoint, startOre, numPoints, maxRadius,
    loops, flipStart)]; [poseList.reverse] is named and not called. *)
Definition get_spiral_waypoints (startPoint : Point64) (startOre : Ore)
    (numPoints : Z) (maxRadius loops : Float64.t) (flipStart : bool)
    : Py.result (list (Pose64 Ore)) :=
  (let count := 0%Z in
   let thTotal := th_total loops in
   n <- of_int numPoints ;;
   thStep <- truediv thTotal n ;;
   b0 <- truediv maxRadius (Fin 2) ;;
   b1 <- truediv b0 pi ;;
   b <- truediv b1 loops ;;
   poseList <- spiral_loop startPoint startOre numPoints thStep b count [] ;;
   let poseList :=
     if flipStart then (let _reverse := @rev (Pose64 Ore) in poseList) else poseList in
   Py.Ok poseList)%py.

End Generator.
End Pouring64.

(** A point and a pose of the exact reading, as finite floats. *)
Definition finite_point (p : Point) : Point64 :=
  mkPoint64 (Float64.Fin (p_x p)) (Float64.Fin (p_y p)) (Float64.Fin (p_z p)).

Definition finite_pose (p : Pose) : Pose64 Quaternion :=
  mkPose64 (finite_point (position p)) (orientation p).

Section Spiral64Spec.

Import Float64.
Open Scope R_scope.

Variable Ore : Type.

(** Cosine and sine where they raise nothing. *)
Definition cos64 (x : Float64.t) : Float64.t :=
  match x with Fin r => Fin (cos r) | _ => NaN end.

Definition sin64 (x : Float64.t) : Float64.t :=
  match x with Fin r => Fin (sin r) | _ => NaN end.

(** The angle of the pass for [count], and the pose that pass appends when
    the angle is no infinity. *)
Definition angle64 (thStep : Float64.t) (count : Z) : Float64.t :=
  mul (Fin (IZR count)) thStep.

Definition pose64_at (startPoint : Point64) (startOre : Ore)
    (thStep b : Float64.t) (count : Z) : Pose64 Ore :=
  let th := angle64 thStep count in
  let r := mul th b in
  mkPose64
    (mkPoint64 (add (mul r (cos64 th)) (x64 startPoint))
               (add (mul r (sin64 th)) (y64 startPoint))
               (z64 startPoint))
    startOre.

(** The angular step and the radial coefficient, once no division has
    raised. *)
Definition th_step64 (numPoints : Z) (loops : Float64.t) : Float64.t :=
  div (Pouring64.th_total loops) (Fin (IZR numPoints)).

Definition coefficient64 (maxRadius loops : Float64.t) : Float64.t :=
  div (div (div maxRadius (Fin 2)) pi) loops.

(** What the loop leaves in [poseList] when no pass raises. *)
Definition spiral_points64 (startPoint : Point64) (startOre : Ore)
    (numPoints : Z) (thStep b : Float64.t) : list (Pose64 Ore) :=
  map (fun k => pose64_at startPoint startOre thStep b (Z.of_nat k))
      (seq 0 (Z.to_nat numPoints)).

(** The arguments for which no intermediate result of the generator leaves
    the range of binary64. *)
Definition spiral_in_range (center : Point) (numPoints : Z) (maxRadius loops : R)
    : Prop :=
  (numPoints < overflow_threshold_Z)%Z
  /\ loops * 2 * PI < overflow_threshold
  /\ maxRadius / 2 / PI / loops < overflow_threshold
  /\ Rabs (p_x center) + maxRadius < overflow_threshold
  /\ Rabs (p_y center) + maxRadius < overflow_threshold.

(** The centre lies within [2^20] radii of the origin on each horizontal
    axis.  An offset of the radius' size added to such a coordinate keeps at
    least 32 of its 53 bits, so the distances of the floats returned are those
    of the exact values to one part in [2^32]; for a centre further out the
    sum absorbs the offset.  Rounding is left out of both readings, so no
    proof below draws on this: it marks the arguments the statements about
    distances are meant for. *)
Definition center_within_radii (center : Point) (maxRadius : R) : Prop :=
  Rabs (p_x center) <= IZR (2 ^ 20) * maxRadius
  /\ Rabs (p_y center) <= IZR (2 ^ 20) * maxRadius.

(** [p] lies within horizontal distance [d] of [c]; a coordinate that is an
    infinity or NaN lies within no distance. *)
Definition within_xy64 (c p : Point64) (d : R) : Prop :=
  match x64 c, y64 c, x64 p, y64 p with
  | Fin cx, Fin cy, Fin x, Fin y => sqrt (Rsqr (x - cx) + Rsqr (y - cy)) <= d
  | _, _, _, _ => False
  end.

End Spiral64Spec.

(* ===================================================================== *)
(** * kettle.py: the end of [Kettle.__init__] *)
(* ===================================================================== *)

Module KettleInit.
Section Init.

Open Scope string_scope.
Open Scope R_scope.

(** What [__init__] asks of the outside world once its clients and servers
    exist: whether the delay service has come up within the timeout, and a
    warning in the log. *)
Inductive cmd : Type :=
| wait_for_service (timeout_sec : R)
| log_warn (msg : string).

Definition resp (c : cmd) : Type :=
  match c with
  | wait_for_service _ => bool
  | log_warn _ => unit
  end.

Definition prog : Type -> Type := Prog.prog resp.
Definition event : Type := Prog.event cmd.
Definition world : Type := Prog.world resp.

Notation "x <- 'call' c ;; k" := (@Prog.Call cmd resp _ c (fun x => k)) : prog_scope.
Notation "'call' c ;; k" := (@Prog.Call cmd resp _ c (fun _ => k)) : prog_scope.
Notation "'return_' a" := (@Prog.Ret cmd resp _ a) : prog_scope.

(** [while not self.delay_client.wait_for_service(timeout_sec=2.0):
        self.get_logger().warn("Waiting for delay service")]
    followed by the assignments of the fixed poses.  The loop has no bound in
    the source; [fuel] bounds the number of polls, and running out of it
    yields [None]. *)
Fixpoint init_wait (fuel : nat) : prog (option KettleNode.Kettle) :=
  match fuel with
  | O => (return_ None)%prog
  | S fuel' =>
      (up <- call wait_for_service 2.0 ;;
       if negb up
       then call log_warn "Waiting for delay service" ;; init_wait fuel'
       else return_ (Some KettleNode.Kettle_init))%prog
  end.

(** The events of [n] polls that all timed out. *)
Fixpoint failed_polls (n : nat) : list event :=
  match n with
  | O => []
  | S n' =>
      failed_polls n' ++
        [Prog.Called (wait_for_service 2.0);
         Prog.Called (log_warn "Waiting for delay service")]
  end.

End Init.
End KettleInit.

(* ===================================================================== *)
(** * Symmetries of the plane, and more ways to read a trace *)
(* ===================================================================== *)

Section Symmetries.
Open Scope R_scope.

(** [p] mirrored in the line through [c] parallel to the x axis. *)
Definition mirror_y (c : Point) (p : Pose) : Pose :=
  mkPose (mkPoint (p_x (position p)) (2 * p_y c - p_y (position p)) (p_z (position p)))
         (orientation p).

(** [p] reflected through the vertical axis over [c]. *)
Definition reflect_xy (c : Point) (p : Pose) : Pose :=
  mkPose (mkPoint (2 * p_x c - p_x (position p)) (2 * p_y c - p_y (position p))
                  (p_z (position p)))
         (orientation p).

(** [p] moved by [d]. *)
Definition translate_point (d p : Point) : Point :=
  mkPoint (p_x p + p_x d) (p_y p + p_y d) (p_z p + p_z d).

Definition translate_pose (d : Point) (p : Pose) : Pose :=
  mkPose (translate_point d (position p)) (orientation p).

Variable ClientGoalHandle : Type.

(** The homing request [pick_kettle_cb] opens with. *)
Definition home_command : KettleNode.cmd ClientGoalHandle :=
  KettleNode.plan_joint_async
    ["panda_joint1"; "panda_joint2"; "panda_joint3"; "panda_joint4";
     "panda_joint5"; "panda_joint6"; "panda_joint7"]%string
    [0.0; - PI / 4.0; 0.0; -3 * PI / 4.0; 0.0; PI / 2.0; PI / 4.0]
    true.

(** The spout offset [pour_kettle_cb] builds, stamped [now]. *)
Definition spout_transform (now : Time) : TransformStamped :=
  mkTransformStamped (mkHeader now "panda_link0") ""
    (mkTransform (mkVector3 (-0.23) 0.0 0.02) Quaternion_default).

(** One pour cycle, as events: the awaited move to the approach pose, the
    awaited move to the pour pose, the awaited spiral sub-request with the
    fixed parameters and the cycle's [start_outside], the awaited result of
    that sub-request (through the handle the sub-request answered), and the
    awaited move back to the approach pose. *)
Definition pour_cycle (approach pour : Pose) (start_outside : bool)
    (handle : ClientGoalHandle) : list (KettleNode.event ClientGoalHandle) :=
  [Prog.Awaited
     (KettleNode.plan_async (position approach) (orientation approach) true);
   Prog.Awaited
     (KettleNode.plan_async (position pour) (orientation pour) true);
   Prog.Awaited
     (KettleNode.pour_kettle_send_goal_async
        (mkPourGoal 100 0.02 2 start_outside "panda_hand_tcp"));
   Prog.Awaited (KettleNode.pour_kettle_get_result_async handle);
   Prog.Awaited
     (KettleNode.plan_async (position approach) (orientation approach) true)].

(** The settle pause: the awaited call of the delay service for one
    second. *)
Definition settle_pause : KettleNode.event ClientGoalHandle :=
  Prog.Awaited (KettleNode.delay_call_async 1).

(** A world for the kettle node whose pour server reports failure: as
    [kettle_world], with every pour result carrying [status = false]. *)
Definition kettle_world_pour_rejected (tf : option TransformStamped)
    (grasped : TransformStamped) : KettleNode.world unit unit :=
  fun history c =>
    match c return KettleNode.resp unit c with
    | KettleNode.pour_kettle_get_result_async _ => mkPourResult false
    | c' => kettle_world tf grasped history c'
    end.

(** A grasp pose for the closed runs: the kettle half a metre in front of the
    base, a tenth of a metre up. *)
Definition kettle_on_stand : TransformStamped :=
  mkTransformStamped (mkHeader Time_default "panda_link0") "kettle"
    (mkTransform (mkVector3 0.5 0 0.1) Quaternion_default).

(** A world for [Kettle.__init__] in which the delay service comes up after
    [n] timed-out polls: the answer to a poll is read off the number of
    events so far, two per failed poll. *)
Definition delay_up_after (n : nat) : KettleInit.world :=
  fun history c =>
    match c return KettleInit.resp c with
    | KettleInit.wait_for_service _ => Nat.leb (2 * n) (List.length history)
    | KettleInit.log_warn _ => tt
    end.

End Symmetries.

(* ===================================================================== *)
(** * Properties of the spiral generator *)
(* ===================================================================== *)

Section SpiralFacts.

Import Pouring.
Open Scope R_scope.

Variables (startPoint : Point) (startOre : Quaternion).

Lemma truediv_nonzero (x y : R) : y <> 0 -> Py.truediv x y = Py.Ok (x / y).
Proof.
  intros Hy. unfold Py.truediv.
  destruct (Req_dec_T y 0); [contradiction | reflexivity].
Qed.

Lemma truediv_zero (x : R) : Py.truediv x 0 = Py.Raise Py.ZeroDivisionError.
Proof.
  unfold Py.truediv. destruct (Req_dec_T 0 0); [reflexivity | congruence].
Qed.

(** The loop appends one pose per remaining index, in increasing order. *)
Lemma spiral_loop_spec (numPoints : Z) (thStep b : R) (n : nat) :
  forall (count : Z) (poseList : list Pose),
    (0 <= count)%Z ->
    Z.to_nat (numPoints - count) = n ->
    spiral_loop startPoint startOre numPoints thStep b count poseList =
    poseList ++
      map (fun k => spiral_pose startPoint startOre thStep b (Z.of_nat k))
          (seq (Z.to_nat count) n).
Proof.
  induction n as [|n IH]; intros count poseList Hc Hn; simp spiral_loop;
    destruct (Z_lt_dec count numPoints) as [Hlt|Hge]; cbn; try lia.
  - now rewrite app_nil_r.
  - rewrite IH by lia.
    rewrite <- app_assoc. cbn.
    rewrite Z2Nat.id by lia.
    replace (Z.to_nat (count + 1)) with (S (Z.to_nat count)) by lia.
    reflexivity.
Qed.

(** With a non-zero point count and a non-zero loop count no division
    raises, and the generator returns the loop's list, whatever [flipStart]. *)
Lemma get_spiral_waypoints_ok (numPoints : Z) (maxRadius loops : R) (flipStart : bool) :
  numPoints <> 0%Z -> loops <> 0 ->
  get_spiral_waypoints startPoint startOre numPoints maxRadius loops flipStart =
  Py.Ok (spiral_points startPoint startOre numPoints
           (loops * 2 * PI / IZR numPoints) (maxRadius / 2 / PI / loops)).
Proof.
  intros Hn Hl. unfold get_spiral_waypoints.
  rewrite (truediv_nonzero _ (not_0_IZR _ Hn)). cbn [Py.bind].
  rewrite (@truediv_nonzero maxRadius 2) by lra. cbn [Py.bind].
  rewrite (truediv_nonzero _ PI_neq0). cbn [Py.bind].
  rewrite (truediv_nonzero _ Hl). cbn [Py.bind].
  rewrite (@spiral_loop_spec numPoints _ _ (Z.to_nat numPoints) 0 []);
    [ | lia | f_equal; lia ].
  destruct flipStart; reflexivity.
Qed.

(** A zero point count or a zero loop count makes a division raise. *)
Lemma get_spiral_waypoints_raises (numPoints : Z) (maxRadius loops : R) (flipStart : bool) :
  numPoints = 0%Z \/ loops = 0 ->
  get_spiral_waypoints startPoint startOre numPoints maxRadius loops flipStart =
  Py.Raise Py.ZeroDivisionError.
Proof.
  intros H. unfold get_spiral_waypoints.
  destruct (Z.eq_dec numPoints 0) as [-> | Hn].
  - now rewrite truediv_zero.
  - destruct H as [H | ->]; [contradiction|].
    rewrite (truediv_nonzero _ (not_0_IZR _ Hn)). cbn [Py.bind].
    rewrite (@truediv_nonzero maxRadius 2) by lra. cbn [Py.bind].
    rewrite (truediv_nonzero _ PI_neq0). cbn [Py.bind].
    now rewrite truediv_zero.
Qed.

(** [flipStart] never changes what the generator returns. *)
Lemma get_spiral_waypoints_flip_inert (numPoints : Z) (maxRadius loops : R) :
  get_spiral_waypoints startPoint startOre numPoints maxRadius loops true =
  get_spiral_waypoints startPoint startOre numPoints maxRadius loops false.
Proof.
  unfold get_spiral_waypoints.
  repeat (match goal with
          | |- context [Py.truediv ?x ?y] => destruct (Py.truediv x y); cbn [Py.bind]
          end; try reflexivity).
Qed.

Lemma spiral_points_length (numPoints : Z) (thStep b : R) :
  List.length (spiral_points startPoint startOre numPoints thStep b) = Z.to_nat numPoints.
Proof. unfold spiral_points. now rewrite length_map, length_seq. Qed.

Lemma spiral_points_nth (numPoints : Z) (thStep b : R) (i : Z) :
  (0 <= i < numPoints)%Z ->
  nth_error (spiral_points startPoint startOre numPoints thStep b) (Z.to_nat i) =
  Some (spiral_pose startPoint startOre thStep b i).
Proof.
  intros Hi. unfold spiral_points.
  rewrite nth_error_map, nth_error_seq.
  destruct (Nat.ltb_spec (Z.to_nat i) (Z.to_nat numPoints)) as [_|Hge]; [|lia].
  cbn. now rewrite Z2Nat.id by lia.
Qed.

Lemma spiral_points_In (numPoints : Z) (thStep b : R) (p : Pose) :
  In p (spiral_points startPoint startOre numPoints thStep b) ->
  exists i, (0 <= i < numPoints)%Z /\ p = spiral_pose startPoint startOre thStep b i.
Proof.
  unfold spiral_points. rewrite in_map_iff.
  intros (k & <- & Hk). apply in_seq in Hk.
  exists (Z.of_nat k). split; [lia | reflexivity].
Qed.

(** The pose the loop computes is the waypoint of the specification. *)
Lemma spiral_pose_spec (numPoints : Z) (maxRadius loops : R) (i : Z) :
  numPoints <> 0%Z -> loops <> 0 ->
  spiral_pose startPoint startOre
    (loops * 2 * PI / IZR numPoints) (maxRadius / 2 / PI / loops) i =
  spec_waypoint startPoint startOre numPoints maxRadius loops i.
Proof.
  intros Hn Hl. pose proof (not_0_IZR _ Hn) as Hn'. pose proof PI_neq0 as Hpi.
  unfold spiral_pose, spec_waypoint, spec_radius, spec_theta. cbv zeta.
  replace (loops * 2 * PI) with (loops * (2 * PI)) by ring.
  f_equal. f_equal; field; repeat split; assumption.
Qed.

(** The radius of sample [i] is [maxRadius * i / numPoints]. *)
Lemma spiral_pose_distance (numPoints : Z) (maxRadius loops : R) (i : Z) :
  (0 < numPoints)%Z -> 0 <= maxRadius -> loops <> 0 -> (0 <= i)%Z ->
  xy_distance startPoint
    (position (spiral_pose startPoint startOre
                 (loops * 2 * PI / IZR numPoints) (maxRadius / 2 / PI / loops) i)) =
  maxRadius * IZR i / IZR numPoints.
Proof.
  intros Hn Hr Hl Hi.
  assert (Hn' : 0 < IZR numPoints) by (apply IZR_lt; exact Hn).
  assert (Hi' : 0 <= IZR i) by (apply IZR_le; exact Hi).
  pose proof PI_neq0 as Hpi.
  unfold xy_distance, spiral_pose. cbn.
  set (th := IZR i * (loops * 2 * PI / IZR numPoints)).
  replace (th * (maxRadius / 2 / PI / loops)) with (maxRadius * IZR i / IZR numPoints)
    by (unfold th; field; repeat split; [assumption | assumption | lra]).
  set (r := maxRadius * IZR i / IZR numPoints).
  assert (Hr0 : 0 <= r).
  { unfold r. apply Rmult_le_pos; [apply Rmult_le_pos; assumption|].
    left. now apply Rinv_0_lt_compat. }
  replace (Rsqr (r * cos th + p_x startPoint - p_x startPoint)
           + Rsqr (r * sin th + p_y startPoint - p_y startPoint))
    with (Rsqr r).
  - now apply sqrt_Rsqr.
  - pose proof (sin2_cos2 th) as Hsc. unfold Rsqr in *.
    replace (r * r) with (r * r * (sin th * sin th + cos th * cos th))
      by (rewrite Hsc; ring).
    ring.
Qed.

End SpiralFacts.

Section SpiralExample.

Import Pouring.
Open Scope R_scope.

(** The worked example, exactly: the four waypoints for a centre at the
    origin, four points, radius 0.02 and one loop, whatever [flipStart]. *)
Lemma example_run (startOre : Quaternion) (flipStart : bool) :
  get_spiral_waypoints origin startOre 4 0.02 1 flipStart =
  Py.Ok (example_waypoints startOre).
Proof.
  rewrite get_spiral_waypoints_ok by (try lia; lra).
  unfold spiral_points, example_waypoints.
  change (Z.to_nat 4) with 4%nat. cbn [seq map].
  unfold spiral_pose, origin. cbn [p_x p_y p_z Z.of_nat Pos.of_succ_nat Pos.succ].
  pose proof PI_neq0 as Hpi.
  replace (IZR 0 * (1 * 2 * PI / IZR 4)) with 0 by field.
  replace (IZR 1 * (1 * 2 * PI / IZR 4)) with (PI / 2) by field.
  replace (IZR 2 * (1 * 2 * PI / IZR 4)) with PI by field.
  replace (IZR 3 * (1 * 2 * PI / IZR 4)) with (3 * (PI / 2)) by field.
  rewrite cos_0, sin_0, cos_PI2, sin_PI2, cos_PI, sin_PI, cos_3PI2, sin_3PI2.
  repeat f_equal; unfold Q2R; cbn [QArith_base.Qnum QArith_base.Qden];
    field; exact Hpi.
Qed.

Lemma near_exact (tol x y z : R) : 0 <= tol -> near tol (mkPoint x y z) x y z.
Proof.
  intros Ht. unfold near; cbn.
  rewrite !Rminus_diag, Rabs_R0. auto.
Qed.

End SpiralExample.

Section SpiralClaims.

Import Pouring.
Open Scope R_scope.

(** C1 (the code departs from it).  At centre the origin, four points, radius
    0.02, one loop: with [flipStart = true] the generator returns the same
    list as with [flipStart = false], which is not its reversal; its first
    waypoint is the centre (radius 0) and its last the outermost one. *)
Theorem spiral_flip_is_inert_at_example :
  get_spiral_waypoints origin Quaternion_default 4 0.02 1 true =
  get_spiral_waypoints origin Quaternion_default 4 0.02 1 false
  /\ get_spiral_waypoints origin Quaternion_default 4 0.02 1 true =
     Py.Ok (example_waypoints Quaternion_default)
  /\ get_spiral_waypoints origin Quaternion_default 4 0.02 1 true <>
     Py.Ok (rev (example_waypoints Quaternion_default))
  /\ hd_error (example_waypoints Quaternion_default) =
     Some (mkPose origin Quaternion_default).
Proof.
  rewrite !example_run. repeat split.
  intros H. unfold example_waypoints in H. cbn [rev app] in H.
  inversion H. lra.
Qed.

(** C4 fails as stated: with [maxRadius = -1] (and one point, one loop) the
    call raises nothing and returns one waypoint. *)
Lemma spiral_negative_radius_accepted :
  -1 < 0
  /\ exists p,
       get_spiral_waypoints origin Quaternion_default 1 (-1) 1 false = Py.Ok [p].
Proof.
  split; [lra|].
  rewrite get_spiral_waypoints_ok by (try lia; lra).
  unfold spiral_points. change (Z.to_nat 1) with 1%nat. cbn [seq map].
  eexists. reflexivity.
Qed.

End SpiralClaims.

(* ===================================================================== *)
(** * The ranged floats *)
(* ===================================================================== *)

Section Float64Facts.

Import Float64.
Open Scope R_scope.

Lemma threshold_large : 16 < overflow_threshold.
Proof. unfold overflow_threshold. apply IZR_lt. reflexivity. Qed.

Lemma round_range_fin (r : R) :
  Rabs r < overflow_threshold -> round_range r = Fin r.
Proof.
  intros Hr. unfold round_range.
  destruct (Rle_dec overflow_threshold (Rabs r)); [lra | reflexivity].
Qed.

Lemma round_range_inf (r : R) :
  overflow_threshold <= Rabs r -> round_range r = Inf (negative r).
Proof.
  intros Hr. unfold round_range.
  destruct (Rle_dec overflow_threshold (Rabs r)); [reflexivity | lra].
Qed.

Lemma round_range_in_range (r x : R) :
  round_range r = Fin x -> Rabs x < overflow_threshold.
Proof.
  unfold round_range.
  destruct (Rle_dec overflow_threshold (Rabs r)); [discriminate|].
  intros H. injection H as <-. lra.
Qed.

Lemma negative_pos (r : R) : 0 <= r -> negative r = false.
Proof. intros Hr. unfold negative. destruct (Rlt_dec r 0); [lra | reflexivity]. Qed.

(** A finite product is in range. *)
Lemma mul_fin_in_range (x y : Float64.t) (r : R) :
  mul x y = Fin r -> Rabs r < overflow_threshold.
Proof.
  destruct x as [a|s|], y as [b|s'|]; cbn [mul]; try discriminate.
  - apply round_range_in_range.
  - destruct (Req_dec_T a 0); discriminate.
  - destruct (Req_dec_T b 0); discriminate.
Qed.

Lemma of_int_ok (n : Z) :
  (Z.abs n < overflow_threshold_Z)%Z -> of_int n = Py.Ok (Fin (IZR n)).
Proof.
  intros Hn. unfold of_int.
  destruct (Z_le_dec overflow_threshold_Z (Z.abs n)); [lia | reflexivity].
Qed.

Lemma of_int_overflow (n : Z) :
  (overflow_threshold_Z <= Z.abs n)%Z -> of_int n = Py.Raise Py.OverflowError.
Proof.
  intros Hn. unfold of_int.
  destruct (Z_le_dec overflow_threshold_Z (Z.abs n)); [reflexivity | lia].
Qed.

Lemma is_zero_fin (r : R) : r <> 0 -> is_zero (Fin r) = false.
Proof. intros Hr. cbn. destruct (Req_dec_T r 0); [contradiction | reflexivity]. Qed.

Lemma is_zero_true (x : Float64.t) : is_zero x = true -> x = Fin 0.
Proof.
  destruct x as [r|s|]; cbn; try discriminate.
  destruct (Req_dec_T r 0) as [-> | _]; [reflexivity | discriminate].
Qed.

Lemma truediv_ok (x y : Float64.t) :
  is_zero y = false -> truediv x y = Py.Ok (div x y).
Proof. intros Hy. unfold truediv. now rewrite Hy. Qed.

Lemma truediv_raises (x y : Float64.t) :
  is_zero y = true -> truediv x y = Py.Raise Py.ZeroDivisionError.
Proof. intros Hy. unfold truediv. now rewrite Hy. Qed.

Lemma is_zero_two : is_zero (Fin 2) = false.
Proof. apply is_zero_fin. lra. Qed.

Lemma is_zero_pi : is_zero pi = false.
Proof. apply is_zero_fin. apply PI_neq0. Qed.

Lemma IZR_abs_lt_threshold (n : Z) :
  (Z.abs n < overflow_threshold_Z)%Z -> Rabs (IZR n) < overflow_threshold.
Proof.
  intros Hn. rewrite <- abs_IZR. unfold overflow_threshold. now apply IZR_lt.
Qed.

End Float64Facts.

(* ===================================================================== *)
(** * The spiral generator in the ranged reading *)
(* ===================================================================== *)

Section Spiral64Facts.

Import Float64.
Import Pouring64.
Open Scope R_scope.

Variable Ore : Type.
Variables (startPoint : Point64) (startOre : Ore).

(** A pass whose angle is no infinity appends its pose. *)
Lemma spiral_pose_returns (thStep b : Float64.t) (count : Z) :
  (Z.abs count < overflow_threshold_Z)%Z ->
  is_inf (angle64 thStep count) = false ->
  spiral_pose startPoint startOre thStep b count =
  Py.Ok (pose64_at startPoint startOre thStep b count).
Proof.
  intros Hc Hth. unfold spiral_pose, pose64_at, angle64 in *.
  rewrite of_int_ok by exact Hc. cbn [Py.bind].
  destruct (mul (Fin (IZR count)) thStep) as [th|s|]; [| discriminate Hth |];
    reflexivity.
Qed.

(** A pass whose angle is an infinity raises [ValueError]. *)
Lemma spiral_pose_raises (thStep b : Float64.t) (count : Z) :
  (Z.abs count < overflow_threshold_Z)%Z ->
  is_inf (angle64 thStep count) = true ->
  spiral_pose startPoint startOre thStep b count = Py.Raise Py.ValueError.
Proof.
  intros Hc Hth. unfold spiral_pose, angle64 in *.
  rewrite of_int_ok by exact Hc. cbn [Py.bind].
  destruct (mul (Fin (IZR count)) thStep) as [th|s|]; try discriminate Hth.
  reflexivity.
Qed.

(** Whatever a pass appends carries the input orientation and the start
    height. *)
Lemma spiral_pose_invariant (thStep b : Float64.t) (count : Z) (p : Pose64 Ore) :
  spiral_pose startPoint startOre thStep b count = Py.Ok p ->
  orientation64 p = startOre /\ z64 (position64 p) = z64 startPoint.
Proof.
  unfold spiral_pose.
  destruct (of_int count) as [c|e]; cbn [Py.bind]; [|discriminate].
  destruct (math_cos (mul c thStep)) as [cs|e]; cbn [Py.bind]; [|discriminate].
  destruct (math_sin (mul c thStep)) as [sn|e]; cbn [Py.bind]; [|discriminate].
  intros H. injection H as <-. split; reflexivity.
Qed.

(** When no remaining angle is an infinity the loop appends one pose per
    remaining index, in increasing order. *)
Lemma spiral_loop_returns (numPoints : Z) (thStep b : Float64.t) (m : nat) :
  forall (count : Z) (poseList : list (Pose64 Ore)),
    (0 <= count)%Z ->
    (numPoints <= overflow_threshold_Z)%Z ->
    Z.to_nat (numPoints - count) = m ->
    (forall k, (count <= k < numPoints)%Z -> is_inf (angle64 thStep k) = false) ->
    spiral_loop startPoint startOre numPoints thStep b count poseList =
    Py.Ok (poseList ++
             map (fun k => pose64_at startPoint startOre thStep b (Z.of_nat k))
                 (seq (Z.to_nat count) m)).
Proof.
  induction m as [|m IH]; intros count poseList Hc Hn Hm Hth; simp spiral_loop;
    destruct (Z_lt_dec count numPoints) as [Hlt|Hge]; cbn; try lia.
  - now rewrite app_nil_r.
  - rewrite spiral_pose_returns by (try lia; apply Hth; lia). cbn.
    rewrite IH; try lia.
    + rewrite <- app_assoc. cbn.
      rewrite Z2Nat.id by lia.
      replace (Z.to_nat (count + 1)) with (S (Z.to_nat count)) by lia.
      reflexivity.
    + intros k Hk. apply Hth. lia.
Qed.

(** When some remaining angle is an infinity the loop raises
    [ValueError]. *)
Lemma spiral_loop_raises (numPoints : Z) (thStep b : Float64.t) (m : nat) :
  forall (count : Z) (poseList : list (Pose64 Ore)),
    (0 <= count)%Z ->
    (numPoints <= overflow_threshold_Z)%Z ->
    Z.to_nat (numPoints - count) = m ->
    (exists k, (count <= k < numPoints)%Z /\ is_inf (angle64 thStep k) = true) ->
    spiral_loop startPoint startOre numPoints thStep b count poseList =
    Py.Raise Py.ValueError.
Proof.
  induction m as [|m IH]; intros count poseList Hc Hn Hm (k & Hk & Hinf);
    simp spiral_loop;
    destruct (Z_lt_dec count numPoints) as [Hlt|Hge]; cbn; try lia.
  destruct (is_inf (angle64 thStep count)) eqn:Hcount.
  - rewrite spiral_pose_raises by (try lia; exact Hcount). reflexivity.
  - rewrite spiral_pose_returns by (try lia; exact Hcount). cbn.
    apply IH; try lia.
    exists k. split; [|exact Hinf].
    assert (k <> count) by (intros ->; congruence). lia.
Qed.

(** Whenever the loop returns it has appended one pose per remaining index,
    each with the input orientation and the start height. *)
Lemma spiral_loop_invariant (numPoints : Z) (thStep b : Float64.t) (m : nat) :
  forall (count : Z) (poseList l : list (Pose64 Ore)),
    Z.to_nat (numPoints - count) = m ->
    spiral_loop startPoint startOre numPoints thStep b count poseList = Py.Ok l ->
    exists new,
      l = poseList ++ new
      /\ List.length new = m
      /\ forall p, In p new ->
           orientation64 p = startOre /\ z64 (position64 p) = z64 startPoint.
Proof.
  induction m as [|m IH]; intros count poseList l Hm; simp spiral_loop;
    destruct (Z_lt_dec count numPoints) as [Hlt|Hge]; cbn; try lia.
  - intros H. injection H as <-. exists []. rewrite app_nil_r.
    split; [reflexivity|]. split; [reflexivity|]. intros q [].
  - destruct (spiral_pose startPoint startOre thStep b count) as [p|e] eqn:Hp;
      cbn; [|discriminate].
    intros Hloop. apply IH in Hloop as (new & -> & Hlen & Hall); [|lia].
    exists (p :: new). rewrite <- app_assoc. cbn [app].
    split; [reflexivity|]. split; [cbn; now rewrite Hlen|].
    intros q [<- | Hin]; [apply (spiral_pose_invariant _ _ _ Hp) | now apply Hall].
Qed.

End Spiral64Facts.

Section Spiral64Outcomes.

Import Float64.
Import Pouring64.
Open Scope R_scope.

Variable Ore : Type.
Variables (startPoint : Point64) (startOre : Ore).

(** A fraction [k / n] of a value is no larger than the value. *)
Lemma Rabs_fraction (tau : R) (k n : Z) :
  (0 <= k < n)%Z -> Rabs (IZR k * (tau / IZR n)) <= Rabs tau.
Proof.
  intros Hk.
  assert (Hn : 0 < IZR n) by (apply IZR_lt; lia).
  assert (Hk0 : 0 <= IZR k) by (apply IZR_le; lia).
  assert (Hkn : IZR k <= IZR n) by (apply IZR_le; lia).
  unfold Rdiv. rewrite !Rabs_mult, Rabs_inv.
  rewrite (Rabs_pos_eq (IZR k)) by exact Hk0.
  rewrite (Rabs_pos_eq (IZR n)) by lra.
  pose proof (Rabs_pos tau) as Ht.
  assert (Hinv : 0 < / IZR n) by now apply Rinv_0_lt_compat.
  replace (IZR k * (Rabs tau * / IZR n)) with (Rabs tau * (IZR k * / IZR n)) by ring.
  rewrite <- (Rmult_1_r (Rabs tau)) at 2.
  apply Rmult_le_compat_l; [exact Ht|].
  apply (Rmult_le_reg_r (IZR n)); [exact Hn|].
  rewrite Rmult_assoc, Rinv_l by lra. lra.
Qed.

Lemma Rabs_quotient (tau : R) (n : Z) :
  (1 <= n)%Z -> Rabs (tau / IZR n) <= Rabs tau.
Proof.
  intros Hn.
  assert (Hn' : 1 <= IZR n) by (apply IZR_le; lia).
  unfold Rdiv. rewrite Rabs_mult, Rabs_inv, (Rabs_pos_eq (IZR n)) by lra.
  pose proof (Rabs_pos tau) as Ht.
  rewrite <- (Rmult_1_r (Rabs tau)) at 2.
  apply Rmult_le_compat_l; [exact Ht|].
  rewrite <- Rinv_1. apply Rinv_le_contravar; lra.
Qed.

(** The angle of the first pass is never an infinity. *)
Lemma angle64_zero (thStep : Float64.t) : is_inf (angle64 thStep 0) = false.
Proof.
  unfold angle64. destruct thStep as [s|sg|]; cbn [mul].
  - rewrite round_range_fin; [reflexivity|].
    rewrite Rmult_0_l, Rabs_R0. pose proof threshold_large. lra.
  - destruct (Req_dec_T 0 0); [reflexivity | congruence].
  - reflexivity.
Qed.

(** With a finite total angle, the step and every angle are finite. *)
Lemma th_step64_fin (numPoints : Z) (loops : Float64.t) (tau : R) :
  th_total loops = Fin tau -> (1 <= numPoints)%Z ->
  th_step64 numPoints loops = Fin (tau / IZR numPoints).
Proof.
  intros Htau Hn. unfold th_step64. rewrite Htau. cbn [div].
  apply round_range_fin.
  pose proof (mul_fin_in_range _ _ Htau). pose proof (Rabs_quotient tau Hn). lra.
Qed.

Lemma angle64_fin (numPoints : Z) (loops : Float64.t) (tau : R) (k : Z) :
  th_total loops = Fin tau -> (0 <= k < numPoints)%Z ->
  angle64 (th_step64 numPoints loops) k =
  Fin (IZR k * (tau / IZR numPoints)).
Proof.
  intros Htau Hk. rewrite (th_step64_fin _ Htau) by lia.
  unfold angle64. cbn [mul]. apply round_range_fin.
  pose proof (mul_fin_in_range _ _ Htau). pose proof (Rabs_fraction tau Hk). lra.
Qed.

(** With an infinite total angle, every angle but the first is an
    infinity. *)
Lemma angle64_inf (numPoints : Z) (loops : Float64.t) (k : Z) :
  is_inf (th_total loops) = true -> k <> 0%Z ->
  is_inf (angle64 (th_step64 numPoints loops) k) = true.
Proof.
  intros Hinf Hk. unfold th_step64, angle64.
  destruct (th_total loops) as [tau|sg|]; try discriminate Hinf.
  cbn [div mul].
  destruct (Req_dec_T (IZR k) 0) as [H0|_]; [|reflexivity].
  apply eq_IZR_R0 in H0. contradiction.
Qed.

Lemma angle64_not_inf (numPoints : Z) (loops : Float64.t) (k : Z) :
  is_inf (th_total loops) = false -> (0 <= k < numPoints)%Z ->
  is_inf (angle64 (th_step64 numPoints loops) k) = false.
Proof.
  intros Hinf Hk.
  destruct (th_total loops) as [tau|sg|] eqn:Htau; try discriminate Hinf.
  - now rewrite (angle64_fin _ Htau Hk).
  - unfold th_step64, angle64. rewrite Htau. reflexivity.
Qed.

(** The total angle of a finite loop count, in range and out of it. *)
Lemma th_total_fin (l : R) :
  Rabs (l * 2 * PI) < overflow_threshold ->
  th_total (Fin l) = Fin (l * 2 * PI).
Proof.
  intros Hth. pose proof PI2_1 as Hpi.
  assert (H2 : Rabs (l * 2) <= Rabs (l * 2 * PI)).
  { rewrite (Rabs_mult (l * 2) PI), (Rabs_pos_eq PI) by lra.
    pose proof (Rabs_pos (l * 2)). nra. }
  unfold th_total, pi. cbn [mul].
  rewrite round_range_fin by lra. cbn [mul]. now apply round_range_fin.
Qed.

Lemma th_total_overflow (l : R) :
  overflow_threshold <= Rabs (l * 2) ->
  is_inf (th_total (Fin l)) = true.
Proof.
  intros Hth. unfold th_total, pi. cbn [mul].
  rewrite round_range_inf by exact Hth. cbn [mul].
  destruct (Req_dec_T PI 0) as [H0|_]; [|reflexivity].
  exfalso. now apply PI_neq0.
Qed.

(** The outcomes of the generator, by the way it fails. *)
Lemma get_spiral_waypoints64_overflow
    (numPoints : Z) (maxRadius loops : Float64.t) (flipStart : bool) :
  (overflow_threshold_Z <= Z.abs numPoints)%Z ->
  get_spiral_waypoints startPoint startOre numPoints maxRadius loops flipStart =
  Py.Raise Py.OverflowError.
Proof.
  intros Hn. unfold get_spiral_waypoints.
  now rewrite of_int_overflow.
Qed.

Lemma get_spiral_waypoints64_no_points
    (maxRadius loops : Float64.t) (flipStart : bool) :
  get_spiral_waypoints startPoint startOre 0 maxRadius loops flipStart =
  Py.Raise Py.ZeroDivisionError.
Proof.
  unfold get_spiral_waypoints.
  rewrite of_int_ok by (cbn; reflexivity). cbn [Py.bind].
  rewrite truediv_raises; [reflexivity|].
  cbn. destruct (Req_dec_T 0 0); [reflexivity | congruence].
Qed.

Lemma get_spiral_waypoints64_no_loops
    (numPoints : Z) (maxRadius loops : Float64.t) (flipStart : bool) :
  (Z.abs numPoints < overflow_threshold_Z)%Z ->
  is_zero loops = true ->
  get_spiral_waypoints startPoint startOre numPoints maxRadius loops flipStart =
  Py.Raise Py.ZeroDivisionError.
Proof.
  intros Hn Hl.
  destruct (Z.eq_dec numPoints 0) as [-> | Hn0];
    [apply get_spiral_waypoints64_no_points|].
  unfold get_spiral_waypoints.
  rewrite of_int_ok by exact Hn. cbn [Py.bind].
  rewrite truediv_ok by (apply is_zero_fin, not_0_IZR, Hn0). cbn [Py.bind].
  rewrite truediv_ok by apply is_zero_two. cbn [Py.bind].
  rewrite truediv_ok by apply is_zero_pi. cbn [Py.bind].
  now rewrite truediv_raises.
Qed.

Lemma get_spiral_waypoints64_loop
    (numPoints : Z) (maxRadius loops : Float64.t) (flipStart : bool) :
  (Z.abs numPoints < overflow_threshold_Z)%Z ->
  numPoints <> 0%Z ->
  is_zero loops = false ->
  get_spiral_waypoints startPoint startOre numPoints maxRadius loops flipStart =
  spiral_loop startPoint startOre numPoints
    (th_step64 numPoints loops) (coefficient64 maxRadius loops) 0 [].
Proof.
  intros Hn Hn0 Hl. unfold get_spiral_waypoints.
  rewrite of_int_ok by exact Hn. cbn [Py.bind].
  rewrite truediv_ok by (apply is_zero_fin, not_0_IZR, Hn0). cbn [Py.bind].
  rewrite truediv_ok by apply is_zero_two. cbn [Py.bind].
  rewrite truediv_ok by apply is_zero_pi. cbn [Py.bind].
  rewrite truediv_ok by exact Hl. cbn [Py.bind].
  fold (th_step64 numPoints loops). fold (coefficient64 maxRadius loops).
  destruct (spiral_loop _ _ _ _ _ _ _) as [l|e]; cbn [Py.bind];
    [destruct flipStart|]; reflexivity.
Qed.

Lemma get_spiral_waypoints64_value_error
    (numPoints : Z) (maxRadius loops : Float64.t) (flipStart : bool) :
  (2 <= numPoints < overflow_threshold_Z)%Z ->
  is_zero loops = false ->
  is_inf (th_total loops) = true ->
  get_spiral_waypoints startPoint startOre numPoints maxRadius loops flipStart =
  Py.Raise Py.ValueError.
Proof.
  intros Hn Hl Hinf.
  rewrite get_spiral_waypoints64_loop by (try lia; exact Hl).
  apply (@spiral_loop_raises Ore startPoint startOre numPoints _ _
           (Z.to_nat (numPoints - 0))); try lia.
  exists 1%Z. split; [lia|]. apply angle64_inf; [exact Hinf | lia].
Qed.

Lemma get_spiral_waypoints64_returns
    (numPoints : Z) (maxRadius loops : Float64.t) (flipStart : bool) :
  (Z.abs numPoints < overflow_threshold_Z)%Z ->
  numPoints <> 0%Z ->
  is_zero loops = false ->
  (numPoints <= 1)%Z \/ is_inf (th_total loops) = false ->
  get_spiral_waypoints startPoint startOre numPoints maxRadius loops flipStart =
  Py.Ok (spiral_points64 startPoint startOre numPoints
           (th_step64 numPoints loops) (coefficient64 maxRadius loops)).
Proof.
  intros Hn Hn0 Hl Hcase.
  rewrite get_spiral_waypoints64_loop by assumption.
  rewrite (@spiral_loop_returns Ore startPoint startOre numPoints _ _
             (Z.to_nat numPoints) 0 []); try lia.
  - reflexivity.
  - intros k Hk. destruct Hcase as [H1 | Hinf].
    + assert (k = 0%Z) as -> by lia. apply angle64_zero.
    + apply angle64_not_inf; assumption.
Qed.

(** Whenever the generator returns, the list has one pose per index, each
    with the input orientation and the start height. *)
Lemma get_spiral_waypoints64_invariant
    (numPoints : Z) (maxRadius loops : Float64.t) (flipStart : bool)
    (l : list (Pose64 Ore)) :
  get_spiral_waypoints startPoint startOre numPoints maxRadius loops flipStart =
    Py.Ok l ->
  List.length l = Z.to_nat numPoints
  /\ forall p, In p l ->
       orientation64 p = startOre /\ z64 (position64 p) = z64 startPoint.
Proof.
  unfold get_spiral_waypoints.
  destruct (of_int numPoints) as [n|e]; cbn [Py.bind]; [|discriminate].
  destruct (truediv (th_total loops) n) as [thStep|e]; cbn [Py.bind]; [|discriminate].
  destruct (truediv maxRadius (Fin 2)) as [b0|e]; cbn [Py.bind]; [|discriminate].
  destruct (truediv b0 pi) as [b1|e]; cbn [Py.bind]; [|discriminate].
  destruct (truediv b1 loops) as [b|e]; cbn [Py.bind]; [|discriminate].
  destruct (spiral_loop startPoint startOre numPoints thStep b 0 []) as [lst|e] eqn:Hloop;
    cbn [Py.bind]; [|discriminate].
  intros H. assert (l = lst) as -> by (destruct flipStart; now injection H).
  apply (@spiral_loop_invariant Ore startPoint startOre numPoints thStep b
           (Z.to_nat (numPoints - 0))) in Hloop as (new & -> & Hlen & Hall);
    [|reflexivity].
  cbn [app]. split; [rewrite Hlen; f_equal; lia | exact Hall].
Qed.

End Spiral64Outcomes.

(* ===================================================================== *)
(** * The two readings agree where nothing leaves the range *)
(* ===================================================================== *)

Section Spiral64Exact.

Import Float64.
Import Pouring64.
Open Scope R_scope.

Variables (center : Point) (ore : Quaternion).
Variables (numPoints : Z) (maxRadius loops : R).

Hypothesis Hpoints : (1 <= numPoints)%Z.
Hypothesis Hradius : 0 <= maxRadius.
Hypothesis Hloops : 0 < loops.
Hypothesis Hrange : spiral_in_range center numPoints maxRadius loops.

Lemma th_total_exact : th_total (Fin loops) = Fin (loops * 2 * PI).
Proof.
  destruct Hrange as (_ & Hth & _).
  pose proof PI2_1 as Hpi.
  apply th_total_fin. rewrite Rabs_pos_eq; [exact Hth | nra].
Qed.

Lemma th_step64_exact :
  th_step64 numPoints (Fin loops) = Fin (loops * 2 * PI / IZR numPoints).
Proof. apply th_step64_fin; [apply th_total_exact | exact Hpoints]. Qed.

Lemma maxRadius_in_range : maxRadius < overflow_threshold.
Proof.
  destruct Hrange as (_ & _ & _ & Hx & _).
  pose proof (Rabs_pos (p_x center)). lra.
Qed.

Lemma coefficient64_exact :
  coefficient64 (Fin maxRadius) (Fin loops) = Fin (maxRadius / 2 / PI / loops).
Proof.
  destruct Hrange as (_ & _ & Hb & _).
  pose proof maxRadius_in_range as HR. pose proof PI2_1 as Hpi.
  assert (Hinv : 0 < / PI) by (apply Rinv_0_lt_compat; lra).
  assert (Hinv1 : / PI <= 1).
  { rewrite <- Rinv_1. apply Rinv_le_contravar; lra. }
  assert (Hinvl : 0 < / loops) by now apply Rinv_0_lt_compat.
  unfold coefficient64, pi. cbn [div].
  rewrite (round_range_fin (maxRadius / 2)) by (rewrite Rabs_pos_eq; lra).
  cbn [div].
  assert (H2 : 0 <= maxRadius / 2 / PI <= maxRadius / 2).
  { unfold Rdiv at 1 3. split; [apply Rmult_le_pos; lra|].
    rewrite <- (Rmult_1_r (maxRadius / 2)) at 2.
    apply Rmult_le_compat_l; lra. }
  rewrite (round_range_fin (maxRadius / 2 / PI)) by (rewrite Rabs_pos_eq; lra).
  cbn [div]. apply round_range_fin.
  rewrite Rabs_pos_eq; [exact Hb|].
  unfold Rdiv at 1. apply Rmult_le_pos; lra.
Qed.

(** The radius of the pass for [k] is [maxRadius * k / numPoints]. *)
Lemma radius_exact (k : Z) :
  IZR k * (loops * 2 * PI / IZR numPoints) * (maxRadius / 2 / PI / loops) =
  maxRadius * IZR k / IZR numPoints.
Proof.
  assert (Hn : IZR numPoints <> 0) by (apply not_0_IZR; lia).
  pose proof PI_neq0. field. repeat split; try assumption. lra.
Qed.

Lemma radius_bounds (k : Z) :
  (0 <= k < numPoints)%Z ->
  0 <= maxRadius * IZR k / IZR numPoints <= maxRadius.
Proof.
  intros Hk.
  assert (Hn : 0 < IZR numPoints) by (apply IZR_lt; lia).
  assert (Hk0 : 0 <= IZR k) by (apply IZR_le; lia).
  assert (Hkn : IZR k <= IZR numPoints) by (apply IZR_le; lia).
  assert (Hinv : 0 < / IZR numPoints) by now apply Rinv_0_lt_compat.
  split.
  - unfold Rdiv. apply Rmult_le_pos; [apply Rmult_le_pos; assumption | lra].
  - apply (Rmult_le_reg_r (IZR numPoints)); [exact Hn|].
    unfold Rdiv. rewrite Rmult_assoc, Rmult_assoc, Rinv_l by lra.
    rewrite Rmult_1_r. apply Rmult_le_compat_l; assumption.
Qed.

(** A product with a cosine or sine, plus an offset, stays within the sum of
    the magnitudes. *)
Lemma offset_bound (r c x : R) :
  0 <= r -> -1 <= c <= 1 -> Rabs (r * c) <= r /\ Rabs (r * c + x) <= Rabs x + r.
Proof.
  intros Hr Hc.
  assert (H1 : Rabs (r * c) <= r).
  { apply Rabs_le. split; nra. }
  split; [exact H1|].
  pose proof (Rabs_triang (r * c) x). lra.
Qed.

(** In range, the pose of a pass is the exact reading's pose. *)
Lemma pose64_at_exact (k : Z) :
  (0 <= k < numPoints)%Z ->
  pose64_at (finite_point center) ore
    (Fin (loops * 2 * PI / IZR numPoints)) (Fin (maxRadius / 2 / PI / loops)) k =
  finite_pose
    (Pouring.spiral_pose center ore
       (loops * 2 * PI / IZR numPoints) (maxRadius / 2 / PI / loops) k).
Proof.
  intros Hk.
  destruct Hrange as (_ & Hth & _ & Hx & Hy).
  pose proof maxRadius_in_range as HR.
  pose proof (radius_bounds Hk) as Hr. pose proof (radius_exact k) as Hrk.
  pose proof PI2_1 as Hpi.
  set (s := loops * 2 * PI / IZR numPoints) in *.
  set (beta := maxRadius / 2 / PI / loops) in *.
  assert (Hang : Rabs (IZR k * s) < overflow_threshold).
  { pose proof (Rabs_fraction (loops * 2 * PI) Hk) as Hf.
    rewrite (Rabs_pos_eq (loops * 2 * PI)) in Hf by nra. unfold s. lra. }
  unfold pose64_at, angle64, finite_pose, finite_point, Pouring.spiral_pose.
  cbn [mul x64 y64 z64 position orientation p_x p_y p_z].
  rewrite (round_range_fin (IZR k * s)) by exact Hang.
  cbn [mul cos64 sin64].
  rewrite (round_range_fin (IZR k * s * beta))
    by (rewrite Hrk, Rabs_pos_eq; lra).
  cbn [mul add].
  destruct (offset_bound (p_x center) (proj1 Hr) (COS_bound (IZR k * s))) as [Hc1 Hc2].
  destruct (offset_bound (p_y center) (proj1 Hr) (SIN_bound (IZR k * s))) as [Hs1 Hs2].
  rewrite <- Hrk in Hc1, Hc2, Hs1, Hs2.
  rewrite (round_range_fin (IZR k * s * beta * cos (IZR k * s))) by lra.
  rewrite (round_range_fin (IZR k * s * beta * sin (IZR k * s))) by lra.
  cbn [add].
  rewrite (round_range_fin (IZR k * s * beta * cos (IZR k * s) + p_x center)) by lra.
  rewrite (round_range_fin (IZR k * s * beta * sin (IZR k * s) + p_y center)) by lra.
  reflexivity.
Qed.

(** In range, the generator returns the list of the exact reading, as
    finite floats. *)
Lemma get_spiral_waypoints64_exact (flipStart : bool) :
  get_spiral_waypoints (finite_point center) ore numPoints
    (Fin maxRadius) (Fin loops) flipStart =
  Py.Ok (map finite_pose
           (spiral_points center ore numPoints
              (loops * 2 * PI / IZR numPoints) (maxRadius / 2 / PI / loops))).
Proof.
  destruct Hrange as (Hn & _).
  rewrite get_spiral_waypoints64_returns.
  - f_equal. unfold spiral_points64, spiral_points.
    rewrite th_step64_exact, coefficient64_exact, map_map.
    apply map_ext_in. intros k Hk. apply in_seq in Hk.
    apply pose64_at_exact. lia.
  - lia.
  - lia.
  - apply is_zero_fin. lra.
  - right. now rewrite th_total_exact.
Qed.

End Spiral64Exact.

(* ===================================================================== *)
(** * The spiral generator on all of binary64 *)
(* ===================================================================== *)

Section Spiral64Ordinary.

Import Float64.
Import Pouring64.
Open Scope R_scope.

(** Arguments of ordinary size are in range. *)
Lemma spiral_in_range_ordinary (center : Point) (numPoints : Z) (maxRadius loops : R) :
  (numPoints <= 2 ^ 1000)%Z ->
  0 <= maxRadius <= 1 -> 1 <= loops <= 2 ->
  Rabs (p_x center) <= 1 -> Rabs (p_y center) <= 1 ->
  spiral_in_range center numPoints maxRadius loops.
Proof.
  intros Hn HR Hl Hx Hy.
  pose proof threshold_large as Ht. pose proof PI_4 as Hpi4. pose proof PI2_1 as Hpi.
  unfold spiral_in_range. repeat split; try lra.
  - assert (2 ^ 1000 < overflow_threshold_Z)%Z by reflexivity. lia.
  - nra.
  - assert (Hinv : 0 < / PI <= 1).
    { split; [apply Rinv_0_lt_compat; lra|].
      rewrite <- Rinv_1. apply Rinv_le_contravar; lra. }
    assert (Hinvl : 0 < / loops <= 1).
    { split; [apply Rinv_0_lt_compat; lra|].
      rewrite <- Rinv_1. apply Rinv_le_contravar; lra. }
    unfold Rdiv.
    assert (0 <= maxRadius * / 2 * / PI <= 1) by nra.
    nra.
Qed.

(** The worked example's list, from its run in the exact reading. *)
Lemma example_points (ore : Quaternion) :
  spiral_points origin ore 4 (1 * 2 * PI / IZR 4) (0.02 / 2 / PI / 1) =
  example_waypoints ore.
Proof.
  pose proof (example_run ore false) as Hrun.
  rewrite get_spiral_waypoints_ok in Hrun by (try lia; lra).
  exact (f_equal (fun m => match m with Py.Ok l => l | Py.Raise _ => [] end) Hrun).
Qed.

Lemma example_in_range : spiral_in_range origin 4 0.02 1.
Proof.
  apply spiral_in_range_ordinary; cbn [origin p_x p_y];
    rewrite ?Rabs_R0; try lra. lia.
Qed.

(** Ten to the 308 is a float, and twice it is not. *)
Lemma huge_loops_facts :
  0 < IZR (10 ^ 308) /\ in_range (Fin (IZR (10 ^ 308)))
  /\ overflow_threshold <= Rabs (IZR (10 ^ 308) * 2)
  /\ overflow_threshold <= Rabs (- IZR (10 ^ 308) * 2).
Proof.
  assert (Hpos : 0 < IZR (10 ^ 308)) by (apply IZR_lt; reflexivity).
  assert (Hbig : overflow_threshold <= IZR (10 ^ 308) * 2).
  { unfold overflow_threshold. rewrite <- mult_IZR. apply IZR_le.
    apply Z.leb_le. vm_compute. reflexivity. }
  repeat split.
  - exact Hpos.
  - cbn [in_range]. rewrite Rabs_pos_eq by lra.
    unfold overflow_threshold. apply IZR_lt. reflexivity.
  - rewrite Rabs_pos_eq by lra. exact Hbig.
  - replace (- IZR (10 ^ 308) * 2) with (- (IZR (10 ^ 308) * 2)) by ring.
    rewrite Rabs_Ropp, Rabs_pos_eq by lra. exact Hbig.
Qed.

End Spiral64Ordinary.

Section Spiral64Claims.

Import Float64.
Import Pouring64.
Open Scope R_scope.




(** C3 fails as stated: with a hundred points, radius 0.02 and
    [loops = 1e308] the call raises [ValueError] instead of returning a
    hundred waypoints, for either value of [flipStart]. *)
Lemma spiral64_raises_on_overflow :
  (1 <= 100)%Z /\ 0 <= 0.02 /\ 0 < IZR (10 ^ 308)
  /\ in_range (Fin (IZR (10 ^ 308)))
  /\ forall flipStart,
       get_spiral_waypoints (finite_point origin) Quaternion_default 100
         (Fin 0.02) (Fin (IZR (10 ^ 308))) flipStart =
       Py.Raise Py.ValueError.
Proof.
  destruct huge_loops_facts as (Hpos & Hin & Hbig & _).
  repeat split; try lia; try lra; try exact Hin.
  intros flipStart. apply get_spiral_waypoints64_value_error.
  - split; [lia | reflexivity].
  - apply is_zero_fin. lra.
  - apply th_total_overflow. exact Hbig.
Qed.

(** C3 as amended.  For [1 <= numPoints] small enough to convert to a float,
    [loops > 0] with [loops * 2pi] in the range of binary64, any radius and
    centre and either value of [flipStart], the generator returns exactly
    [numPoints] waypoints, each carrying the input orientation.  And for any
    arguments whatever, whenever the generator returns, the list has one
    waypoint per index below [numPoints] and each carries the input
    orientation. *)
Theorem spiral64_length_and_orientation (Ore : Type) :
  (forall (center : Point64) (ore : Ore) (numPoints : Z) (maxRadius : Float64.t)
          (loops : R) (flipStart : bool),
      (1 <= numPoints < overflow_threshold_Z)%Z ->
      0 < loops -> loops * 2 * PI < overflow_threshold ->
      exists l,
        get_spiral_waypoints center ore numPoints maxRadius (Fin loops) flipStart =
          Py.Ok l
        /\ Z.of_nat (List.length l) = numPoints
        /\ forall p, In p l -> orientation64 p = ore)
  /\ (forall (center : Point64) (ore : Ore) (numPoints : Z)
             (maxRadius loops : Float64.t) (flipStart : bool) (l : list (Pose64 Ore)),
        get_spiral_waypoints center ore numPoints maxRadius loops flipStart = Py.Ok l ->
        List.length l = Z.to_nat numPoints
        /\ forall p, In p l -> orientation64 p = ore).
Proof.
  assert (Hany : forall (center : Point64) (ore : Ore) (numPoints : Z)
             (maxRadius loops : Float64.t) (flipStart : bool) (l : list (Pose64 Ore)),
        get_spiral_waypoints center ore numPoints maxRadius loops flipStart = Py.Ok l ->
        List.length l = Z.to_nat numPoints
        /\ forall p, In p l -> orientation64 p = ore).
  { intros center ore numPoints maxRadius loops flipStart l Hok.
    destruct (get_spiral_waypoints64_invariant _ _ _ _ _ _ Hok) as [Hlen Hall].
    split; [exact Hlen|]. intros p Hp. apply (Hall p Hp). }
  split; [|exact Hany].
  intros center ore numPoints maxRadius loops flipStart Hn Hl Hth.
  pose proof PI2_1 as Hpi.
  eexists. split.
  - apply get_spiral_waypoints64_returns; try lia.
    + apply is_zero_fin. lra.
    + right. rewrite th_total_fin; [reflexivity|].
      rewrite Rabs_pos_eq; [exact Hth | nra].
  - split.
    + unfold spiral_points64. rewrite length_map, length_seq. lia.
    + intros p Hp. unfold spiral_points64 in Hp.
      apply in_map_iff in Hp as (k & <- & _). reflexivity.
Qed.

Lemma spiral64_length_and_orientation_witness :
  exists l,
    get_spiral_waypoints (finite_point origin) Quaternion_default 100
      (Fin 0.02) (Fin 2) true = Py.Ok l
    /\ Z.of_nat (List.length l) = 100%Z
    /\ forall p, In p l -> orientation64 p = Quaternion_default.
Proof.
  apply (proj1 (spiral64_length_and_orientation Quaternion)).
  - split; [lia | reflexivity].
  - lra.
  - pose proof PI_4. pose proof threshold_large. lra.
Defined.

(** C4 as amended.  The generator validates nothing and has no
    parameter-validation error; what it does on every argument is this.
    A point count too large in magnitude to convert to a float raises
    [OverflowError].  Otherwise a zero point count or a zero loop count raises
    [ZeroDivisionError].  Otherwise, with two points or more and a total angle
    [loops * 2 * pi] that is an infinity, [math.cos] raises [ValueError] on
    the second pass.  Otherwise the call returns, whatever the sign of the
    radius and of the loop count: the empty list for a negative point count,
    and one waypoint per index otherwise. *)
Theorem spiral64_outcomes (Ore : Type)
    (center : Point64) (ore : Ore) (numPoints : Z) (maxRadius loops : Float64.t)
    (flipStart : bool) :
  let outcome :=
    get_spiral_waypoints center ore numPoints maxRadius loops flipStart in
  ((overflow_threshold_Z <= Z.abs numPoints)%Z ->
     outcome = Py.Raise Py.OverflowError)
  /\ ((Z.abs numPoints < overflow_threshold_Z)%Z ->
      numPoints = 0%Z \/ is_zero loops = true ->
      outcome = Py.Raise Py.ZeroDivisionError)
  /\ ((2 <= numPoints < overflow_threshold_Z)%Z ->
      is_zero loops = false -> is_inf (th_total loops) = true ->
      outcome = Py.Raise Py.ValueError)
  /\ ((Z.abs numPoints < overflow_threshold_Z)%Z ->
      numPoints <> 0%Z -> is_zero loops = false ->
      (numPoints <= 1)%Z \/ is_inf (th_total loops) = false ->
      exists l, outcome = Py.Ok l /\ List.length l = Z.to_nat numPoints).
Proof.
  cbv zeta. split; [|split; [|split]].
  - apply get_spiral_waypoints64_overflow.
  - intros Hn [-> | Hl].
    + apply get_spiral_waypoints64_no_points.
    + now apply get_spiral_waypoints64_no_loops.
  - apply get_spiral_waypoints64_value_error.
  - intros Hn Hn0 Hl Hcase. eexists. split.
    + now apply get_spiral_waypoints64_returns.
    + unfold spiral_points64. now rewrite length_map, length_seq.
Qed.

Lemma spiral64_outcomes_witness :
  get_spiral_waypoints (finite_point origin) Quaternion_default (- 10 ^ 400)
    (Fin 0.02) (Fin 1) false = Py.Raise Py.OverflowError
  /\ get_spiral_waypoints (finite_point origin) Quaternion_default 0
       (Fin 0.02) (Fin 1) false = Py.Raise Py.ZeroDivisionError
  /\ get_spiral_waypoints (finite_point origin) Quaternion_default 4
       (Fin 0.02) (Fin 0) false = Py.Raise Py.ZeroDivisionError
  /\ get_spiral_waypoints (finite_point origin) Quaternion_default 2
       (Fin 0.02) (Fin (- IZR (10 ^ 308))) false = Py.Raise Py.ValueError
  /\ (exists l,
        get_spiral_waypoints (finite_point origin) Quaternion_default (-3)
          (Fin 0.02) (Fin 1) false = Py.Ok l /\ List.length l = 0%nat)
  /\ (exists l,
        get_spiral_waypoints (finite_point origin) Quaternion_default 4
          (Fin (-1)) (Fin (-2)) false = Py.Ok l /\ List.length l = 4%nat).
Proof.
  pose proof PI_4 as Hpi4. pose proof PI2_1 as Hpi. pose proof threshold_large as Ht.
  destruct huge_loops_facts as (Hpos & _ & _ & Hbig).
  split; [|split; [|split; [|split; [|split]]]].
  - apply (spiral64_outcomes (finite_point origin) Quaternion_default (- 10 ^ 400)
             (Fin 0.02) (Fin 1) false).
    apply Z.leb_le. vm_compute. reflexivity.
  - apply (spiral64_outcomes (finite_point origin) Quaternion_default 0
             (Fin 0.02) (Fin 1) false); [reflexivity | left; reflexivity].
  - apply (spiral64_outcomes (finite_point origin) Quaternion_default 4
             (Fin 0.02) (Fin 0) false); [reflexivity | right].
    cbn. destruct (Req_dec_T 0 0); [reflexivity | congruence].
  - apply (spiral64_outcomes (finite_point origin) Quaternion_default 2
             (Fin 0.02) (Fin (- IZR (10 ^ 308))) false).
    + split; [lia | reflexivity].
    + apply is_zero_fin. lra.
    + apply th_total_overflow. exact Hbig.
  - apply (spiral64_outcomes (finite_point origin) Quaternion_default (-3)
             (Fin 0.02) (Fin 1) false).
    + reflexivity.
    + lia.
    + apply is_zero_fin. lra.
    + left. lia.
  - apply (spiral64_outcomes (finite_point origin) Quaternion_default 4
             (Fin (-1)) (Fin (-2)) false).
    + reflexivity.
    + lia.
    + apply is_zero_fin. lra.
    + right. rewrite th_total_fin; [reflexivity|].
      replace (-2 * 2 * PI) with (- (4 * PI)) by ring.
      rewrite Rabs_Ropp, Rabs_pos_eq; lra.
Defined.

End Spiral64Claims.

Section Spiral64Radius.

Import Float64.
Import Pouring64.
Open Scope R_scope.

(** Ten to the minus 320 is positive and small, and the radial coefficient
    for radius 0.02 over it is out of range. *)
Lemma tiny_loops_facts :
  0 < / IZR (10 ^ 320) < 1 / 4
  /\ overflow_threshold <= Rabs (0.02 / 2 / PI / / IZR (10 ^ 320)).
Proof.
  assert (Hbig : 0 < IZR (10 ^ 320)) by (apply IZR_lt; reflexivity).
  assert (H4 : 4 < IZR (10 ^ 320)) by (apply IZR_lt; reflexivity).
  assert (Hinv : 0 < / IZR (10 ^ 320)) by now apply Rinv_0_lt_compat.
  pose proof PI_4 as Hpi4. pose proof PI2_1 as Hpi.
  assert (Hinvpi : / 4 <= / PI) by (apply Rinv_le_contravar; lra).
  split.
  - split; [exact Hinv|].
    unfold Rdiv. rewrite Rmult_1_l. apply Rinv_lt_contravar; lra.
  - unfold Rdiv. rewrite Rinv_inv.
    assert (Hq : overflow_threshold <= 0.02 * / 2 * / 4 * IZR (10 ^ 320)).
    { replace (0.02 * / 2 * / 4 * IZR (10 ^ 320)) with (IZR (10 ^ 320) / 400)
        by (unfold Rdiv; lra).
      replace (10 ^ 320)%Z with (400 * (25 * 10 ^ 316))%Z by reflexivity.
      rewrite mult_IZR. unfold Rdiv.
      replace (400 * IZR (25 * 10 ^ 316) * / 400) with (IZR (25 * 10 ^ 316)) by field.
      unfold overflow_threshold. apply IZR_le. apply Z.leb_le. vm_compute. reflexivity. }
    rewrite Rabs_pos_eq.
    + assert (0.02 * / 2 * / 4 * IZR (10 ^ 320) <= 0.02 * / 2 * / PI * IZR (10 ^ 320)).
      { apply Rmult_le_compat_r; [lra|]. apply Rmult_le_compat_l; lra. }
      lra.
    + assert (0 < / PI) by (apply Rinv_0_lt_compat; lra).
      apply Rmult_le_pos; [apply Rmult_le_pos; lra | lra].
Qed.




End Spiral64Radius.

Section Spiral64Start.

Import Float64.
Import Pouring64.
Open Scope R_scope.

Variable Ore : Type.

(** Adding a zero offset to a coordinate in range leaves it as it is. *)
Lemma add_zero_offset (z : R) (x : Float64.t) :
  z = 0 -> in_range x -> add (Fin z) x = x.
Proof.
  intros -> Hx. destruct x as [a|s|]; cbn [add]; try reflexivity.
  rewrite Rplus_0_l. now apply round_range_fin.
Qed.

(** A product with zero on either side is a zero in range. *)
Lemma round_range_zero (r : R) : r = 0 -> round_range r = Fin r.
Proof.
  intros ->. apply round_range_fin. rewrite Rabs_R0.
  pose proof threshold_large. lra.
Qed.

(** The radial coefficient of a finite radius over finite non-zero loops,
    when the quotient is in range. *)
Lemma coefficient64_fin (maxRadius loops : R) :
  Rabs maxRadius < overflow_threshold ->
  Rabs (maxRadius / 2 / PI / loops) < overflow_threshold ->
  coefficient64 (Fin maxRadius) (Fin loops) = Fin (maxRadius / 2 / PI / loops).
Proof.
  intros HR Hb. pose proof PI2_1 as Hpi.
  assert (H2 : Rabs (maxRadius / 2) <= Rabs maxRadius).
  { unfold Rdiv. rewrite Rabs_mult, (Rabs_pos_eq (/ 2)) by lra.
    pose proof (Rabs_pos maxRadius). lra. }
  assert (H3 : Rabs (maxRadius / 2 / PI) <= Rabs (maxRadius / 2)).
  { unfold Rdiv at 1. rewrite Rabs_mult, Rabs_inv, (Rabs_pos_eq PI) by lra.
    pose proof (Rabs_pos (maxRadius / 2)).
    assert (0 < / PI <= 1).
    { split; [apply Rinv_0_lt_compat; lra|].
      rewrite <- Rinv_1. apply Rinv_le_contravar; lra. }
    nra. }
  unfold coefficient64, pi. cbn [div].
  rewrite (round_range_fin (maxRadius / 2)) by lra. cbn [div].
  rewrite (round_range_fin (maxRadius / 2 / PI)) by lra. cbn [div].
  now apply round_range_fin.
Qed.


(** X7.  With a zero radius, a finite non-zero loop count whose total angle
    is in range, and a centre whose finite coordinates are in range, every
    waypoint returned is the start pose: the call returns that pose once per
    index. *)
Theorem spiral64_zero_radius_collapses
    (center : Point64) (ore : Ore) (numPoints : Z) (loops : R) (flipStart : bool) :
  (1 <= numPoints < overflow_threshold_Z)%Z ->
  loops <> 0 ->
  Rabs (loops * 2 * PI) < overflow_threshold ->
  in_range (x64 center) -> in_range (y64 center) ->
  get_spiral_waypoints center ore numPoints (Fin 0) (Fin loops) flipStart =
  Py.Ok (repeat (mkPose64 center ore) (Z.to_nat numPoints)).
Proof.
  intros Hn Hl Hth Hx Hy. pose proof threshold_large as Ht.
  rewrite get_spiral_waypoints64_returns;
    [ | lia | lia | now apply is_zero_fin | right; now rewrite th_total_fin ].
  f_equal. unfold spiral_points64.
  rewrite coefficient64_fin;
    [ | rewrite Rabs_R0; lra
      | replace (0 / 2 / PI / loops) with 0 by (unfold Rdiv; ring);
        rewrite Rabs_R0; lra ].
  assert (Hpose : forall k, (k < Z.to_nat numPoints)%nat ->
            pose64_at center ore (th_step64 numPoints (Fin loops))
              (Fin (0 / 2 / PI / loops)) (Z.of_nat k) = mkPose64 center ore).
  { intros k Hk. unfold pose64_at.
    rewrite (angle64_fin _ (th_total_fin _ Hth)) by lia.
    cbn [mul cos64 sin64].
    rewrite (round_range_zero (r := _ * (0 / 2 / PI / loops)))
      by (unfold Rdiv; ring).
    cbn [mul].
    rewrite (round_range_zero (r := _ * (0 / 2 / PI / loops) * cos _))
      by (unfold Rdiv; ring).
    rewrite (round_range_zero (r := _ * (0 / 2 / PI / loops) * sin _))
      by (unfold Rdiv; ring).
    rewrite !add_zero_offset by (try (unfold Rdiv; ring); assumption).
    destruct center as [cx cy cz]. reflexivity. }
  rewrite (map_ext_in _ (fun _ => mkPose64 center ore)).
  - now rewrite map_const, length_seq.
  - intros k Hk. apply in_seq in Hk. apply Hpose. lia.
Qed.

End Spiral64Start.

Section Spiral64StartRuns.

Import Float64.
Import Pouring64.
Open Scope R_scope.


Lemma spiral64_zero_radius_collapses_witness :
  get_spiral_waypoints (finite_point origin) Quaternion_default 4
    (Fin 0) (Fin 1) false =
  Py.Ok (repeat (mkPose64 (finite_point origin) Quaternion_default) (Z.to_nat 4)).
Proof.
  pose proof PI_4 as Hpi4. pose proof PI2_1 as Hpi. pose proof threshold_large as Ht.
  apply (@spiral64_zero_radius_collapses Quaternion (finite_point origin)
           Quaternion_default 4 1 false).
  - split; [lia | reflexivity].
  - lra.
  - apply Rabs_def1; lra.
  - cbn. rewrite Rabs_R0. lra.
  - cbn. rewrite Rabs_R0. lra.
Defined.

End Spiral64StartRuns.

(* ===================================================================== *)
(** * Properties of the pour server *)
(* ===================================================================== *)

Section PourServerClaims.

Import PouringNode.
Open Scope string_scope.

Variable RobotTrajectory : Type.

(** C7.  When the lookup of the requested frame relative to [panda_link0]
    fails, the pour server issues the lookup and one feedback message naming
    the frame and nothing else, and returns a result with [status = false];
    no exception leaves the callback, and no pose is read, no path computed,
    planned or executed. *)
Theorem pour_callback_lookup_failure
    (w : PouringNode.world RobotTrajectory) (req : PourAction_Goal) :
  w [] (lookup_transform "panda_link0" (pour_frame req)) = None ->
  Prog.run w (pour_callback req) [] =
  ([Prog.Called (lookup_transform "panda_link0" (pour_frame req));
    Prog.Called (publish_feedback ("Failed to get transform to " ++ pour_frame req))],
   Py.Ok (mkPourResult false)).
Proof.
  intros Hlookup. unfold pour_callback, tf_parent_frame. cbn [Prog.run app].
  rewrite Hlookup. reflexivity.
Qed.

(** C9 as amended.  Whenever the pour server returns [status = true], the
    last two commands it issued are [execute_trajectory], by a plain call
    that is not awaited, and [succeed]; no execution was awaited. *)
Theorem pour_callback_success_not_awaited
    (w : PouringNode.world RobotTrajectory) (req : PourAction_Goal)
    (trace : list (PouringNode.event RobotTrajectory)) (res : PourAction_Result) :
  Prog.run w (pour_callback req) [] = (trace, Py.Ok res) ->
  status res = true ->
  (exists before traj,
      trace = (before ++ [Prog.Called (execute_trajectory traj); Prog.Called succeed])%list)
  /\ ~ awaits_execution trace.
Proof.
  unfold pour_callback. cbn [Prog.run app].
  destruct (w [] (lookup_transform tf_parent_frame (pour_frame req))) as [tf|].
  - cbn [Prog.run app].
    destruct (Pouring.get_spiral_waypoints _ _ _ _ _ _) as [waypoints|e];
      cbn [Prog.lift Prog.run app]; intros Hrun Hstatus; [|discriminate].
    injection Hrun as <- <-. split.
    + eexists [_; _; _; _; _; _], _. reflexivity.
    + intros [traj Hin]. cbn [In] in Hin.
      repeat (destruct Hin as [Hin|Hin]; [discriminate Hin|]). exact Hin.
  - cbn [Prog.run app]. intros Hrun Hstatus.
    injection Hrun as _ <-. discriminate Hstatus.
Qed.

End PourServerClaims.

Section PourServerRuns.

Import PouringNode.
Open Scope string_scope.
Open Scope R_scope.

Lemma pour_callback_lookup_failure_witness :
  Prog.run (pouring_world None ee_at_origin)
    (pour_callback (mkPourGoal 100 0.02 2 true "panda_hand_tcp")) [] =
  ([Prog.Called (lookup_transform "panda_link0" "panda_hand_tcp");
    Prog.Called (publish_feedback "Failed to get transform to panda_hand_tcp")],
   Py.Ok (mkPourResult false)).
Proof.
  apply (@pour_callback_lookup_failure unit (pouring_world None ee_at_origin)
           (mkPourGoal 100 0.02 2 true "panda_hand_tcp")).
  reflexivity.
Defined.

(** The run of the pour server on the worked example: the frame sits at the
    origin, four points, radius 0.02, one loop. *)
Lemma pour_callback_example_run :
  Prog.run (pouring_world (Some TransformStamped_default) ee_at_origin)
    (pour_callback (mkPourGoal 4 0.02 1 false "pot_top")) [] =
  ([Prog.Called (lookup_transform "panda_link0" "pot_top");
    Prog.Awaited get_end_effector_pose;
    Prog.Called (publish_feedback "Calculating path");
    Prog.Called (publish_feedback "Planning path");
    Prog.Awaited (create_cartesian_path (example_waypoints Quaternion_default));
    Prog.Called (publish_feedback "Executing path");
    Prog.Called (execute_trajectory tt);
    Prog.Called succeed],
   Py.Ok (mkPourResult true)).
Proof.
  unfold pour_callback.
  cbn [Prog.run app pouring_world translation transform TransformStamped_default
       v_x v_y v_z pose orientation ee_at_origin num_points spiral_radius num_loops
       start_outside pour_frame].
  change (mkPoint 0 0 0) with origin. rewrite example_run.
  reflexivity.
Qed.

(** C9 fails as stated: on the worked example the pour server returns
    [status = true] and has awaited no execution. *)
Lemma pour_success_without_completion :
  exists trace,
    Prog.run (pouring_world (Some TransformStamped_default) ee_at_origin)
      (pour_callback (mkPourGoal 4 0.02 1 false "pot_top")) [] =
    (trace, Py.Ok (mkPourResult true))
    /\ ~ awaits_execution trace.
Proof.
  eexists. split; [apply pour_callback_example_run|].
  intros [traj Hin]. cbn [In] in Hin.
  repeat (destruct Hin as [Hin|Hin]; [discriminate Hin|]). exact Hin.
Qed.

Lemma pour_callback_success_not_awaited_witness :
  (exists before traj,
      fst (Prog.run (pouring_world (Some TransformStamped_default) ee_at_origin)
             (pour_callback (mkPourGoal 4 0.02 1 false "pot_top")) []) =
      (before ++ [Prog.Called (execute_trajectory traj); Prog.Called succeed])%list)
  /\ ~ awaits_execution
         (fst (Prog.run (pouring_world (Some TransformStamped_default) ee_at_origin)
                 (pour_callback (mkPourGoal 4 0.02 1 false "pot_top")) [])).
Proof.
  apply (@pour_callback_success_not_awaited unit
           (pouring_world (Some TransformStamped_default) ee_at_origin)
           (mkPourGoal 4 0.02 1 false "pot_top") _ (mkPourResult true)).
  - rewrite pour_callback_example_run. reflexivity.
  - reflexivity.
Defined.

End PourServerRuns.

(* ===================================================================== *)
(** * Properties of the kettle node *)
(* ===================================================================== *)

Section KettleClaims.

Import KettleNode.
Open Scope string_scope.
Open Scope R_scope.

Variables PlanResult ClientGoalHandle : Type.
Variable do_transform_pose : Pose -> TransformStamped -> Pose.

(** A pick that finds the kettle tag stores the grasp pose the grasp process
    reports in [kettle_actual_place], and nothing else writes that field. *)
Lemma pick_kettle_records_grasp
    (w : KettleNode.world PlanResult ClientGoalHandle) (self self' : Kettle)
    (trace : list (KettleNode.event ClientGoalHandle)) (r : EmptyAction_Result) :
  Prog.run w (pick_kettle_cb do_transform_pose self) [] =
    (trace, Py.Ok (self', Some r)) ->
  exists goal,
    In (Prog.Awaited (grasp_process_get_result_async goal)) trace
    /\ exists before,
         kettle_actual_place self' =
         actual_grasp_pose (w before (grasp_process_get_result_async goal)).
Proof.
  unfold pick_kettle_cb. cbn [Prog.run app].
  match goal with
  | |- context [match ?x with Some _ => _ | None => _ end] => destruct x as [tf|]
  end; cbn [Prog.run app]; intros Hrun; [|discriminate Hrun].
  injection Hrun as <- <- _.
  eexists. split; [cbn [In]; do 4 right; left; reflexivity|].
  eexists. reflexivity.
Qed.

(** C6 as amended.  [place_kettle_cb] checks no precondition: on any node
    state it submits one grasp plan, composed through the recorded
    [kettle_actual_place], then succeeds and returns a result; and a node on
    which no pick has run records the default-constructed transform. *)
Theorem place_kettle_unguarded
    (w : KettleNode.world PlanResult ClientGoalHandle) (self : Kettle) :
  Prog.run w (place_kettle_cb do_transform_pose self) [] =
    ([Prog.Awaited
        (execute_grasp_plan (release_plan do_transform_pose (kettle_actual_place self)));
      Prog.Called succeed],
     Py.Ok (self, Some EmptyAction_Result_ctor))
  /\ kettle_actual_place Kettle_init = TransformStamped_default.
Proof.
  split; [|reflexivity].
  unfold place_kettle_cb, release_plan. cbn [Prog.run app].
  replace 0.0 with 0 by lra. replace 50.0 with 50 by lra.
  reflexivity.
Qed.

(** C8 as amended.  When the lookup of [pot_top] relative to [panda_link0]
    fails, [pour_kettle_cb] issues the lookup and the error log
    "No transform found" and nothing else (so no motion command), leaves the
    node as it was, and returns no result. *)
Theorem pour_kettle_lookup_failure
    (w : KettleNode.world PlanResult ClientGoalHandle) (self : Kettle) :
  w [] (lookup_transform "panda_link0" "pot_top") = None ->
  Prog.run w (pour_kettle_cb do_transform_pose self) [] =
    ([Prog.Called (lookup_transform "panda_link0" "pot_top");
      Prog.Called (log_error "No transform found")],
     Py.Ok (self, None))
  /\ existsb (fun e => is_motion (command e))
       (fst (Prog.run w (pour_kettle_cb do_transform_pose self) [])) = false.
Proof.
  intros Hlookup.
  assert (Hrun : Prog.run w (pour_kettle_cb do_transform_pose self) [] =
                 ([Prog.Called (lookup_transform "panda_link0" "pot_top");
                   Prog.Called (log_error "No transform found")],
                  Py.Ok (self, None))).
  { unfold pour_kettle_cb. cbn [Prog.run app]. rewrite Hlookup. reflexivity. }
  split; [exact Hrun|]. rewrite Hrun. reflexivity.
Qed.

End KettleClaims.

Section KettleRuns.

Import KettleNode.
Open Scope string_scope.
Open Scope R_scope.

(** C6 fails as stated: on the node as [__init__] leaves it, with no pick
    before, [place_kettle_cb] raises nothing, submits a grasp plan for
    execution, and returns a result. *)
Lemma place_before_pick_moves :
  exists trace,
    Prog.run (kettle_world None TransformStamped_default)
      (place_kettle_cb rigid_transform_pose Kettle_init) [] =
    (trace, Py.Ok (Kettle_init, Some EmptyAction_Result_ctor))
    /\ List.length (submitted_grasp_plans trace) = 1%nat
    /\ existsb (fun e => is_motion (command e)) trace = true.
Proof.
  eexists. split; [reflexivity|]. split; reflexivity.
Qed.

(** C8 fails as stated: when tf2 knows no [pot_top], [pour_kettle_cb] returns
    nothing at all ([None]), and the one message it logs does not name the
    frame. *)
Lemma pour_kettle_failure_is_silent :
  Prog.run (kettle_world None TransformStamped_default)
    (pour_kettle_cb rigid_transform_pose Kettle_init) [] =
  ([Prog.Called (lookup_transform "panda_link0" "pot_top");
    Prog.Called (log_error "No transform found")],
   Py.Ok (Kettle_init, None)).
Proof. reflexivity. Qed.

Lemma pour_kettle_lookup_failure_witness :
  Prog.run (kettle_world None TransformStamped_default)
    (pour_kettle_cb rigid_transform_pose Kettle_init) [] =
    ([Prog.Called (lookup_transform "panda_link0" "pot_top");
      Prog.Called (log_error "No transform found")],
     Py.Ok (Kettle_init, None))
  /\ existsb (fun e => is_motion (command e))
       (fst (Prog.run (kettle_world None TransformStamped_default)
               (pour_kettle_cb rigid_transform_pose Kettle_init) [])) = false.
Proof.
  apply (@pour_kettle_lookup_failure unit unit rigid_transform_pose
           (kettle_world None TransformStamped_default) Kettle_init).
  reflexivity.
Defined.

End KettleRuns.

(* ===================================================================== *)
(** * The four pour cycles *)
(* ===================================================================== *)

Section PourCycles.

Import KettleNode.
Open Scope string_scope.
Open Scope R_scope.

Variables PlanResult ClientGoalHandle : Type.
Variable do_transform_pose : Pose -> TransformStamped -> Pose.

(** C5.  Every run of [pour_kettle_cb] that returns a result has issued,
    after the lookup of [pot_top] and the reading of the clock, exactly four
    pour cycles and three settle pauses, and then [succeed]: cycle 1 with
    [start_outside = true], cycles 2 to 4 with [start_outside = false]; each
    cycle awaits its spiral sub-request (100 points, radius 0.02, 2 loops) and
    that sub-request's result between the awaited moves; each of the first
    three cycles is followed, after its move back to the approach pose, by an
    awaited one-second call of the delay service, and the fourth by none.
    The result awaited in a cycle is that of the cycle's own sub-request: the
    handle is the one the world answered to it. *)
Theorem pour_kettle_four_cycles
    (w : KettleNode.world PlanResult ClientGoalHandle) (self self' : Kettle)
    (trace : list (KettleNode.event ClientGoalHandle)) (r : EmptyAction_Result) :
  Prog.run w (pour_kettle_cb do_transform_pose self) [] =
    (trace, Py.Ok (self', Some r)) ->
  exists pot_top_tf now handle1 handle2 handle3 handle4,
    w [] (lookup_transform "panda_link0" "pot_top") = Some pot_top_tf
    /\ now = w (firstn 1 trace) clock_now
    /\ handle1 = w (firstn 4 trace)
                   (pour_kettle_send_goal_async
                      (mkPourGoal 100 0.02 2 true "panda_hand_tcp"))
    /\ handle2 = w (firstn 10 trace)
                   (pour_kettle_send_goal_async
                      (mkPourGoal 100 0.02 2 false "panda_hand_tcp"))
    /\ handle3 = w (firstn 16 trace)
                   (pour_kettle_send_goal_async
                      (mkPourGoal 100 0.02 2 false "panda_hand_tcp"))
    /\ handle4 = w (firstn 22 trace)
                   (pour_kettle_send_goal_async
                      (mkPourGoal 100 0.02 2 false "panda_hand_tcp"))
    /\ let through p :=
         do_transform_pose (do_transform_pose p (spout_transform now)) pot_top_tf in
       let approach :=
         through (mkPose (mkPoint (-0.01) 0.0 0.20) (mkQuaternion 1.0 0.0 0.0 0.0)) in
       let pour :=
         through (mkPose (mkPoint 0.01 (-0.005) 0.17)
                         (mkQuaternion 0.9452608 0.0 (-0.3150869) (-0.0848662))) in
       trace =
       ([Prog.Called (lookup_transform "panda_link0" "pot_top");
         Prog.Called clock_now]
        ++ pour_cycle approach pour true handle1
        ++ [settle_pause ClientGoalHandle]
        ++ pour_cycle approach pour false handle2
        ++ [settle_pause ClientGoalHandle]
        ++ pour_cycle approach pour false handle3
        ++ [settle_pause ClientGoalHandle]
        ++ pour_cycle approach pour false handle4
        ++ [Prog.Called succeed])%list.
Proof.
  unfold pour_kettle_cb. cbn [Prog.run app].
  destruct (w [] (lookup_transform "panda_link0" "pot_top")) as [pot_top_tf|].
  - cbn [Prog.run app]. intros Hrun. injection Hrun as <- _ _.
    exists pot_top_tf. do 5 eexists. split; [reflexivity|].
    cbv zeta. unfold pour_cycle, settle_pause, spout_transform. cbn [app firstn].
    replace 2.0 with 2 by lra. replace 1.0 with 1 by lra.
    repeat (split; [reflexivity|]). reflexivity.
  - cbn [Prog.run app]. intros Hrun. discriminate Hrun.
Qed.

End PourCycles.

Section PourCyclesRun.

Import KettleNode.
Open Scope string_scope.
Open Scope R_scope.

Lemma pour_kettle_four_cycles_witness :
  exists pot_top_tf now handle1 handle2 handle3 handle4,
    kettle_world_pour_rejected (Some kettle_on_stand) kettle_on_stand []
      (lookup_transform "panda_link0" "pot_top") = Some pot_top_tf
    /\ now = Time_default
    /\ handle1 = tt /\ handle2 = tt /\ handle3 = tt /\ handle4 = tt
    /\ let through p :=
         rigid_transform_pose (rigid_transform_pose p (spout_transform now))
           pot_top_tf in
       let approach :=
         through (mkPose (mkPoint (-0.01) 0.0 0.20) (mkQuaternion 1.0 0.0 0.0 0.0)) in
       let pour :=
         through (mkPose (mkPoint 0.01 (-0.005) 0.17)
                         (mkQuaternion 0.9452608 0.0 (-0.3150869) (-0.0848662))) in
       fst (Prog.run (kettle_world_pour_rejected (Some kettle_on_stand) kettle_on_stand)
              (pour_kettle_cb rigid_transform_pose Kettle_init) []) =
       ([Prog.Called (lookup_transform "panda_link0" "pot_top");
         Prog.Called clock_now]
        ++ pour_cycle approach pour true handle1
        ++ [settle_pause unit]
        ++ pour_cycle approach pour false handle2
        ++ [settle_pause unit]
        ++ pour_cycle approach pour false handle3
        ++ [settle_pause unit]
        ++ pour_cycle approach pour false handle4
        ++ [Prog.Called succeed])%list.
Proof.
  apply (@pour_kettle_four_cycles unit unit rigid_transform_pose
           (kettle_world_pour_rejected (Some kettle_on_stand) kettle_on_stand)
           Kettle_init Kettle_init _ EmptyAction_Result_ctor).
  reflexivity.
Defined.

End PourCyclesRun.

(* ===================================================================== *)
(** * More on the spiral generator *)
(* ===================================================================== *)

Section SpiralShape.

Import Pouring.
Open Scope R_scope.

Variables (center : Point) (ore : Quaternion).

(** A returned list comes from a non-zero point count and loop count. *)
Lemma get_spiral_waypoints_ok_inv (numPoints : Z) (maxRadius loops : R)
    (flipStart : bool) (l : list Pose) :
  get_spiral_waypoints center ore numPoints maxRadius loops flipStart = Py.Ok l ->
  numPoints <> 0%Z /\ loops <> 0.
Proof.
  intros Hok. split; intros Hz.
  - rewrite get_spiral_waypoints_raises in Hok by (left; exact Hz). discriminate Hok.
  - rewrite get_spiral_waypoints_raises in Hok by (right; exact Hz). discriminate Hok.
Qed.

(** X1.  The [flipStart] argument has no effect: for all arguments the
    generator returns the same outcome with [true] as with [false]. *)
Theorem spiral_flip_ignored (numPoints : Z) (maxRadius loops : R) :
  get_spiral_waypoints center ore numPoints maxRadius loops true =
  get_spiral_waypoints center ore numPoints maxRadius loops false.
Proof.
  unfold get_spiral_waypoints.
  destruct (Py.truediv (loops * 2 * PI) (IZR numPoints)) as [thStep|e];
    cbn [Py.bind]; [|reflexivity].
  destruct (Py.truediv maxRadius 2) as [b0|e]; cbn [Py.bind]; [|reflexivity].
  destruct (Py.truediv b0 PI) as [b1|e]; cbn [Py.bind]; [|reflexivity].
  destruct (Py.truediv b1 loops) as [b|e]; cbn [Py.bind]; reflexivity.
Qed.

(** X3.  Whenever the generator returns, for any arguments, every waypoint
    keeps the centre's height: the spiral lies in the horizontal plane
    through the centre. *)
Theorem spiral_is_planar (numPoints : Z) (maxRadius loops : R) (flipStart : bool)
    (l : list Pose) :
  get_spiral_waypoints center ore numPoints maxRadius loops flipStart = Py.Ok l ->
  forall p, In p l -> p_z (position p) = p_z center.
Proof.
  intros Hok p Hp.
  destruct (get_spiral_waypoints_ok_inv _ _ _ _ Hok) as [Hn Hl].
  rewrite get_spiral_waypoints_ok in Hok by assumption.
  injection Hok as <-.
  apply spiral_points_In in Hp as (i & _ & ->). reflexivity.
Qed.

(** X5.  Negating the loop count mirrors the spiral: the waypoints for
    [- loops] are those for [loops] mirrored in the line through the centre
    parallel to the x axis, so the spiral winds the other way. *)
Theorem spiral_negative_loops_mirror (numPoints : Z) (maxRadius loops : R)
    (flipStart : bool) (l : list Pose) :
  get_spiral_waypoints center ore numPoints maxRadius loops flipStart = Py.Ok l ->
  get_spiral_waypoints center ore numPoints maxRadius (- loops) flipStart =
  Py.Ok (map (mirror_y center) l).
Proof.
  intros Hok.
  destruct (get_spiral_waypoints_ok_inv _ _ _ _ Hok) as [Hn Hl].
  assert (Hl' : - loops <> 0) by lra.
  pose proof (not_0_IZR _ Hn) as Hn'. pose proof PI_neq0 as Hpi.
  rewrite get_spiral_waypoints_ok in Hok by assumption. injection Hok as <-.
  rewrite get_spiral_waypoints_ok by assumption.
  unfold spiral_points. rewrite map_map. f_equal. apply map_ext. intros k.
  unfold mirror_y, spiral_pose. cbn [position orientation p_x p_y p_z].
  replace (- loops * 2 * PI / IZR numPoints)
    with (- (loops * 2 * PI / IZR numPoints)) by (field; assumption).
  replace (maxRadius / 2 / PI / - loops)
    with (- (maxRadius / 2 / PI / loops)) by (field; split; assumption).
  set (th := loops * 2 * PI / IZR numPoints).
  replace (IZR (Z.of_nat k) * - th) with (- (IZR (Z.of_nat k) * th)) by ring.
  rewrite cos_neg, sin_neg. f_equal. f_equal; ring.
Qed.

(** X6.  Negating the radius reflects the spiral through the centre: the
    waypoints for [- maxRadius] are those for [maxRadius] turned half a turn
    about the vertical axis over the centre. *)
Theorem spiral_negative_radius_reflects (numPoints : Z) (maxRadius loops : R)
    (flipStart : bool) (l : list Pose) :
  get_spiral_waypoints center ore numPoints maxRadius loops flipStart = Py.Ok l ->
  get_spiral_waypoints center ore numPoints (- maxRadius) loops flipStart =
  Py.Ok (map (reflect_xy center) l).
Proof.
  intros Hok.
  destruct (get_spiral_waypoints_ok_inv _ _ _ _ Hok) as [Hn Hl].
  pose proof PI_neq0 as Hpi.
  rewrite get_spiral_waypoints_ok in Hok by assumption. injection Hok as <-.
  rewrite get_spiral_waypoints_ok by assumption.
  unfold spiral_points. rewrite map_map. f_equal. apply map_ext. intros k.
  unfold reflect_xy, spiral_pose. cbn [position orientation p_x p_y p_z].
  replace (- maxRadius / 2 / PI / loops)
    with (- (maxRadius / 2 / PI / loops)) by (field; split; assumption).
  f_equal. f_equal; ring.
Qed.

End SpiralShape.

Section SpiralTranslation.

Import Pouring.
Open Scope R_scope.

(** X8.  Moving the centre moves the spiral with it: the waypoints about
    the centre moved by [d] are the waypoints about the centre, each moved
    by [d]. *)
Theorem spiral_translation (center d : Point) (ore : Quaternion)
    (numPoints : Z) (maxRadius loops : R) (flipStart : bool) (l : list Pose) :
  get_spiral_waypoints center ore numPoints maxRadius loops flipStart = Py.Ok l ->
  get_spiral_waypoints (translate_point d center) ore numPoints maxRadius loops
    flipStart =
  Py.Ok (map (translate_pose d) l).
Proof.
  intros Hok.
  destruct (get_spiral_waypoints_ok_inv _ _ _ _ _ _ Hok) as [Hn Hl].
  rewrite get_spiral_waypoints_ok in Hok by assumption. injection Hok as <-.
  rewrite get_spiral_waypoints_ok by assumption.
  unfold spiral_points. rewrite map_map. f_equal. apply map_ext. intros k.
  unfold translate_pose, translate_point, spiral_pose.
  cbn [position orientation p_x p_y p_z].
  f_equal. f_equal; ring.
Qed.

Lemma spiral_is_planar_witness :
  p_z (position (mkPose (mkPoint 0 (-0.015) 0) Quaternion_default)) = p_z origin.
Proof.
  apply (@spiral_is_planar origin Quaternion_default 4 0.02 1 false
           (example_waypoints Quaternion_default)
           (example_run Quaternion_default false)).
  unfold example_waypoints. cbn [In]. do 3 right. left. reflexivity.
Defined.

Lemma spiral_negative_loops_mirror_witness :
  get_spiral_waypoints origin Quaternion_default 4 0.02 (- 1) false =
  Py.Ok (map (mirror_y origin) (example_waypoints Quaternion_default)).
Proof.
  apply (@spiral_negative_loops_mirror origin Quaternion_default 4 0.02 1 false
           (example_waypoints Quaternion_default)).
  apply example_run.
Defined.

Lemma spiral_negative_radius_reflects_witness :
  get_spiral_waypoints origin Quaternion_default 4 (- (0.02)) 1 false =
  Py.Ok (map (reflect_xy origin) (example_waypoints Quaternion_default)).
Proof.
  apply (@spiral_negative_radius_reflects origin Quaternion_default 4 0.02 1 false
           (example_waypoints Quaternion_default)).
  apply example_run.
Defined.

Lemma spiral_translation_witness :
  get_spiral_waypoints (translate_point (mkPoint 1 2 3) origin) Quaternion_default
    4 0.02 1 false =
  Py.Ok (map (translate_pose (mkPoint 1 2 3)) (example_waypoints Quaternion_default)).
Proof.
  apply (@spiral_translation origin (mkPoint 1 2 3) Quaternion_default 4 0.02 1 false
           (example_waypoints Quaternion_default)).
  apply example_run.
Defined.

End SpiralTranslation.

(* ===================================================================== *)
(** * More on the pour server *)
(* ===================================================================== *)

Section PourServerRunsInGeneral.

Import PouringNode.
Open Scope string_scope.
Open Scope R_scope.

Variable RobotTrajectory : Type.
Variable w : PouringNode.world RobotTrajectory.


(** X10.  When the frame is found but the request asks for zero points or
    zero loops, the pour server reads the end-effector pose, publishes
    "Calculating path", and then [ZeroDivisionError] leaves the callback:
    nothing is planned or executed and no result is returned. *)
Theorem pour_callback_zero_division (req : PourAction_Goal) (tf : TransformStamped) :
  w [] (lookup_transform "panda_link0" (pour_frame req)) = Some tf ->
  num_points req = 0%Z \/ num_loops req = 0 ->
  Prog.run w (pour_callback req) [] =
  ([Prog.Called (lookup_transform "panda_link0" (pour_frame req));
    Prog.Awaited get_end_effector_pose;
    Prog.Called (publish_feedback "Calculating path")],
   Py.Raise Py.ZeroDivisionError).
Proof.
  intros Hlookup Hzero.
  unfold pour_callback, tf_parent_frame. cbn [Prog.run app].
  rewrite Hlookup. cbn [Prog.run app].
  rewrite get_spiral_waypoints_raises by exact Hzero.
  reflexivity.
Qed.

(** X11.  The [start_outside] field of a request changes nothing: two
    requests that differ in it alone give the same run of the pour server. *)
Theorem pour_callback_ignores_start_outside
    (points : Z) (radius loops : R) (frame : string) :
  Prog.run w (pour_callback (mkPourGoal points radius loops true frame)) [] =
  Prog.run w (pour_callback (mkPourGoal points radius loops false frame)) [].
Proof.
  unfold pour_callback.
  cbn [Prog.run app pour_frame num_points spiral_radius num_loops start_outside].
  destruct (w [] (lookup_transform tf_parent_frame frame)) as [tf|]; [|reflexivity].
  cbn [Prog.run app].
  rewrite get_spiral_waypoints_flip_inert. reflexivity.
Qed.

End PourServerRunsInGeneral.

Section PourServerMoreRuns.

Import PouringNode.
Open Scope string_scope.
Open Scope R_scope.

Lemma pour_callback_zero_division_witness :
  Prog.run (pouring_world (Some TransformStamped_default) ee_at_origin)
    (pour_callback (mkPourGoal 0 0.02 2 true "panda_hand_tcp")) [] =
  ([Prog.Called (lookup_transform "panda_link0" "panda_hand_tcp");
    Prog.Awaited get_end_effector_pose;
    Prog.Called (publish_feedback "Calculating path")],
   Py.Raise Py.ZeroDivisionError).
Proof.
  apply (@pour_callback_zero_division unit
           (pouring_world (Some TransformStamped_default) ee_at_origin)
           (mkPourGoal 0 0.02 2 true "panda_hand_tcp") TransformStamped_default).
  - reflexivity.
  - left. reflexivity.
Defined.


End PourServerMoreRuns.

(* ===================================================================== *)
(** * More on the kettle node *)
(* ===================================================================== *)

Section KettleRunsInGeneral.

Import KettleNode.
Open Scope string_scope.
Open Scope R_scope.

Variables PlanResult ClientGoalHandle : Type.
Variable do_transform_pose : Pose -> TransformStamped -> Pose.
Variable w : KettleNode.world PlanResult ClientGoalHandle.

(** X12.  [pick_kettle_cb] homes the arm before it looks for the kettle tag:
    when the lookup fails the homing motion has already been executed; the
    callback then logs "No transform found", sends no grasp request, leaves
    the node as it was and returns no result. *)
Theorem pick_kettle_lookup_failure (self : Kettle) :
  w [Prog.Awaited (home_command ClientGoalHandle)]
    (lookup_transform "panda_link0" "filtered_kettle_tag") = None ->
  Prog.run w (pick_kettle_cb do_transform_pose self) [] =
  ([Prog.Awaited (home_command ClientGoalHandle);
    Prog.Called (lookup_transform "panda_link0" "filtered_kettle_tag");
    Prog.Called (log_error "No transform found")],
   Py.Ok (self, None))
  /\ is_motion (home_command ClientGoalHandle) = true.
Proof.
  intros Hlookup. split; [|reflexivity].
  unfold pick_kettle_cb, home_command in *. cbn [Prog.run app].
  rewrite Hlookup. reflexivity.
Qed.

(** X13.  When the kettle tag is found, [pick_kettle_cb] homes the arm, sends
    one grasp request and awaits its result, then succeeds.  The request
    carries the node's observe pose carried through the tag transform, and the
    node's approach, grasp and retreat poses as they are; afterwards the node
    records the grasp pose the grasp process reported, and its fixed poses are
    unchanged. *)
Theorem pick_kettle_success_run (self : Kettle) (tf : TransformStamped) :
  w [Prog.Awaited (home_command ClientGoalHandle)]
    (lookup_transform "panda_link0" "filtered_kettle_tag") = Some tf ->
  exists goal handle result before self',
    Prog.run w (pick_kettle_cb do_transform_pose self) [] =
    ([Prog.Awaited (home_command ClientGoalHandle);
      Prog.Called (lookup_transform "panda_link0" "filtered_kettle_tag");
      Prog.Called (log_warn "MADE GRASP PROCESS GOAL");
      Prog.Awaited (grasp_process_send_goal_async goal);
      Prog.Awaited (grasp_process_get_result_async handle);
      Prog.Called succeed],
     Py.Ok (self', Some EmptyAction_Result_ctor))
    /\ goal_observe_pose goal = do_transform_pose (observe_pose self) tf
    /\ goal_approach_pose goal = approach_pose self
    /\ goal_grasp_pose goal = grasp_pose self
    /\ goal_retreat_pose goal = retreat_pose self
    /\ result = w before (grasp_process_get_result_async handle)
    /\ kettle_actual_place self' = actual_grasp_pose result
    /\ observe_pose self' = observe_pose self
    /\ approach_pose self' = approach_pose self
    /\ grasp_pose self' = grasp_pose self
    /\ retreat_pose self' = retreat_pose self.
Proof.
  intros Hlookup.
  do 5 eexists. split.
  - unfold pick_kettle_cb, home_command in *. cbn [Prog.run app].
    rewrite Hlookup. cbn [Prog.run app]. reflexivity.
  - cbn. repeat split; reflexivity.
Qed.

(** X14.  A place after a successful pick releases at the grasp the pick
    recorded: whatever world the place runs in, the one grasp plan it submits
    is composed through the grasp pose that the grasp process reported to the
    pick. *)
Theorem pick_then_place
    (w' : KettleNode.world PlanResult ClientGoalHandle) (self self' : Kettle)
    (trace : list (KettleNode.event ClientGoalHandle)) (r : EmptyAction_Result) :
  Prog.run w (pick_kettle_cb do_transform_pose self) [] =
    (trace, Py.Ok (self', Some r)) ->
  exists handle before,
    In (Prog.Awaited (grasp_process_get_result_async handle)) trace
    /\ submitted_grasp_plans
         (fst (Prog.run w' (place_kettle_cb do_transform_pose self') [])) =
       [release_plan do_transform_pose
          (actual_grasp_pose (w before (grasp_process_get_result_async handle)))].
Proof.
  intros Hpick.
  destruct (pick_kettle_records_grasp _ _ _ Hpick) as (handle & Hin & before & Hplace).
  exists handle, before. split; [exact Hin|].
  unfold place_kettle_cb, release_plan. cbn [Prog.run app fst submitted_grasp_plans command].
  rewrite Hplace.
  replace 0.0 with 0 by lra. replace 50.0 with 50 by lra.
  reflexivity.
Qed.

End KettleRunsInGeneral.

Section KettleMoreRuns.

Import KettleNode.
Open Scope string_scope.
Open Scope R_scope.

Lemma pick_kettle_lookup_failure_witness :
  Prog.run (kettle_world None kettle_on_stand)
    (pick_kettle_cb rigid_transform_pose Kettle_init) [] =
  ([Prog.Awaited (home_command unit);
    Prog.Called (lookup_transform "panda_link0" "filtered_kettle_tag");
    Prog.Called (log_error "No transform found")],
   Py.Ok (Kettle_init, None))
  /\ is_motion (home_command unit) = true.
Proof.
  apply (@pick_kettle_lookup_failure unit unit rigid_transform_pose
           (kettle_world None kettle_on_stand) Kettle_init).
  reflexivity.
Defined.

Lemma pick_kettle_success_run_witness :
  exists goal handle result before self',
    Prog.run (kettle_world (Some TransformStamped_default) kettle_on_stand)
      (pick_kettle_cb rigid_transform_pose Kettle_init) [] =
    ([Prog.Awaited (home_command unit);
      Prog.Called (lookup_transform "panda_link0" "filtered_kettle_tag");
      Prog.Called (log_warn "MADE GRASP PROCESS GOAL");
      Prog.Awaited (grasp_process_send_goal_async goal);
      Prog.Awaited (grasp_process_get_result_async handle);
      Prog.Called succeed],
     Py.Ok (self', Some EmptyAction_Result_ctor))
    /\ goal_observe_pose goal =
       rigid_transform_pose (observe_pose Kettle_init) TransformStamped_default
    /\ goal_approach_pose goal = approach_pose Kettle_init
    /\ goal_grasp_pose goal = grasp_pose Kettle_init
    /\ goal_retreat_pose goal = retreat_pose Kettle_init
    /\ result = kettle_world (Some TransformStamped_default) kettle_on_stand before
                  (grasp_process_get_result_async handle)
    /\ kettle_actual_place self' = actual_grasp_pose result
    /\ observe_pose self' = observe_pose Kettle_init
    /\ approach_pose self' = approach_pose Kettle_init
    /\ grasp_pose self' = grasp_pose Kettle_init
    /\ retreat_pose self' = retreat_pose Kettle_init.
Proof.
  apply (@pick_kettle_success_run unit unit rigid_transform_pose
           (kettle_world (Some TransformStamped_default) kettle_on_stand)
           Kettle_init TransformStamped_default).
  reflexivity.
Defined.

Lemma pick_then_place_witness :
  exists handle before,
    In (Prog.Awaited (grasp_process_get_result_async handle))
       (fst (Prog.run (kettle_world (Some TransformStamped_default) kettle_on_stand)
               (pick_kettle_cb rigid_transform_pose Kettle_init) []))
    /\ submitted_grasp_plans
         (fst (Prog.run (kettle_world None TransformStamped_default)
                 (place_kettle_cb rigid_transform_pose
                    (set_kettle_actual_place Kettle_init kettle_on_stand)) [])) =
       [release_plan rigid_transform_pose
          (actual_grasp_pose
             (kettle_world (Some TransformStamped_default) kettle_on_stand before
                (grasp_process_get_result_async handle)))].
Proof.
  apply (@pick_then_place unit unit rigid_transform_pose
           (kettle_world (Some TransformStamped_default) kettle_on_stand)
           (kettle_world None TransformStamped_default)
           Kettle_init (set_kettle_actual_place Kettle_init kettle_on_stand)
           _ EmptyAction_Result_ctor).
  reflexivity.
Defined.

End KettleMoreRuns.

(* ===================================================================== *)
(** * The wait for the delay service in [Kettle.__init__] *)
(* ===================================================================== *)

Section KettleInitFacts.

Import KettleInit.
Open Scope string_scope.
Open Scope R_scope.

Variable w : KettleInit.world.

Lemma failed_polls_length (n : nat) : List.length (failed_polls n) = (2 * n)%nat.
Proof.
  induction n as [|n IH]; [reflexivity|].
  cbn [failed_polls]. rewrite length_app, IH. cbn [List.length]. lia.
Qed.

(** The loop, started after [j] failed polls, with [m] more to fail. *)
Lemma init_wait_from (m : nat) :
  forall j fuel : nat,
    (m < fuel)%nat ->
    (forall k, (j <= k < j + m)%nat ->
       w (failed_polls k) (wait_for_service 2.0) = false) ->
    w (failed_polls (j + m)) (wait_for_service 2.0) = true ->
    Prog.run w (init_wait fuel) (failed_polls j) =
    ((failed_polls (j + m) ++ [Prog.Called (wait_for_service 2.0)])%list,
     Py.Ok (Some KettleNode.Kettle_init)).
Proof.
  induction m as [|m IH]; intros j fuel Hfuel Hdown Hup;
    (destruct fuel as [|fuel]; [lia|]); cbn [init_wait Prog.run].
  - rewrite Nat.add_0_r in *. rewrite Hup. reflexivity.
  - rewrite (Hdown j) by lia. cbn [negb Prog.run].
    rewrite <- app_assoc. cbn [app].
    change (failed_polls j ++
              [Prog.Called (wait_for_service 2.0);
               Prog.Called (log_warn "Waiting for delay service")])%list
      with (failed_polls (S j)).
    replace (j + S m)%nat with (S j + m)%nat by lia.
    apply IH.
    + lia.
    + intros k Hk. apply Hdown. lia.
    + replace (S j + m)%nat with (j + S m)%nat by lia. exact Hup.
Qed.

(** The loop, started after [j] failed polls, while the service stays
    down. *)
Lemma init_wait_down_from (fuel : nat) :
  forall j : nat,
    (forall k, (j <= k < j + fuel)%nat ->
       w (failed_polls k) (wait_for_service 2.0) = false) ->
    Prog.run w (init_wait fuel) (failed_polls j) =
    (failed_polls (j + fuel), Py.Ok None).
Proof.
  induction fuel as [|fuel IH]; intros j Hdown; cbn [init_wait Prog.run].
  - now rewrite Nat.add_0_r.
  - rewrite (Hdown j) by lia. cbn [negb Prog.run].
    rewrite <- app_assoc. cbn [app].
    change (failed_polls j ++
              [Prog.Called (wait_for_service 2.0);
               Prog.Called (log_warn "Waiting for delay service")])%list
      with (failed_polls (S j)).
    replace (j + S fuel)%nat with (S j + fuel)%nat by lia.
    apply IH. intros k Hk. apply Hdown. lia.
Qed.

(** X17.  [Kettle.__init__] polls the delay service with a two-second
    timeout and logs one warning per poll that times out: if the first [n]
    polls time out and the next one finds the service, the constructor ends
    after exactly [n] warnings and [n + 1] polls, with the node holding the
    default-constructed grasp record and its fixed poses. *)
Theorem init_wait_finishes (n fuel : nat) :
  (n < fuel)%nat ->
  (forall k, (k < n)%nat -> w (failed_polls k) (wait_for_service 2.0) = false) ->
  w (failed_polls n) (wait_for_service 2.0) = true ->
  Prog.run w (init_wait fuel) [] =
  ((failed_polls n ++ [Prog.Called (wait_for_service 2.0)])%list,
   Py.Ok (Some KettleNode.Kettle_init))
  /\ List.length (failed_polls n) = (2 * n)%nat.
Proof.
  intros Hfuel Hdown Hup. split; [|apply failed_polls_length].
  apply (@init_wait_from n 0 fuel Hfuel).
  - intros k Hk. apply Hdown. lia.
  - exact Hup.
Qed.

(** X18.  While the delay service stays down [Kettle.__init__] does not
    finish: however many polls are allowed, if all of them time out the
    constructor has logged one warning per poll and is still waiting. *)
Theorem init_wait_keeps_waiting (fuel : nat) :
  (forall k, (k < fuel)%nat -> w (failed_polls k) (wait_for_service 2.0) = false) ->
  Prog.run w (init_wait fuel) [] = (failed_polls fuel, Py.Ok None).
Proof.
  intros Hdown. apply (@init_wait_down_from fuel 0).
  intros k Hk. apply Hdown. lia.
Qed.

End KettleInitFacts.

Section KettleInitRuns.

Import KettleInit.
Open Scope string_scope.
Open Scope R_scope.

Lemma init_wait_finishes_witness :
  Prog.run (delay_up_after 2) (init_wait 5) [] =
  ((failed_polls 2 ++ [Prog.Called (wait_for_service 2.0)])%list,
   Py.Ok (Some KettleNode.Kettle_init))
  /\ List.length (failed_polls 2) = (2 * 2)%nat.
Proof.
  apply (@init_wait_finishes (delay_up_after 2) 2 5).
  - lia.
  - intros k Hk. unfold delay_up_after. rewrite failed_polls_length.
    apply Nat.leb_gt. lia.
  - reflexivity.
Defined.

Lemma init_wait_keeps_waiting_witness :
  Prog.run (delay_up_after 7) (init_wait 5) [] = (failed_polls 5, Py.Ok None).
Proof.
  apply (@init_wait_keeps_waiting (delay_up_after 7) 5).
  intros k Hk. unfold delay_up_after. rewrite failed_polls_length.
  apply Nat.leb_gt. lia.
Defined.

End KettleInitRuns.
